(** * MouseListener: a shallow embedding of [src/index.js]

    Every utility class of the library is a listener-plus-callback adapter
    around a small mutable object.  Each class is embedded as a record for
    the fields of [this], and each method as a computation in a small
    state-and-trace monad: the state is the object (together with the part
    of the host it touches), the trace is the sequence of calls made to
    user callbacks and host APIs, in program order.

    Numbers.  [Date.now()] yields integer milliseconds and is modelled in
    [Z]; it is passed to the methods that read the clock.  Pointer
    coordinates and the values derived from them are JS numbers, modelled
    as real numbers: rounding of IEEE doubles is not represented.
    [event.button] is an integer index. *)

From Stdlib Require Import ZArith List Bool String Reals Lra Lia Sorted.
Import ListNotations.

Set Implicit Arguments.

(** ** Effects: state passing with a trace of outgoing calls *)

Section Effects.
Variables St Call : Type.

Definition Eff (A : Type) : Type := St -> A * St * list Call.

Definition ret {A} (a : A) : Eff A := fun s => (a, s, []).

Definition bind {A B} (m : Eff A) (k : A -> Eff B) : Eff B :=
  fun s =>
    let '(a, s1, c1) := m s in
    let '(b, s2, c2) := k a s1 in
    (b, s2, c1 ++ c2).

Definition get : Eff St := fun s => (s, s, []).
Definition modify (f : St -> St) : Eff unit := fun s => (tt, f s, []).
Definition call (c : Call) : Eff unit := fun s => (tt, s, [c]).
Definition when (b : bool) (m : Eff unit) : Eff unit :=
  if b then m else ret tt.

(** Observations of one run. *)
Definition result {A} (m : Eff A) (s : St) : A := fst (fst (m s)).
Definition exec {A} (m : Eff A) (s : St) : St := snd (fst (m s)).
Definition calls {A} (m : Eff A) (s : St) : list Call := snd (m s).
End Effects.

(** A computation preserves a predicate on states. *)
Definition preserves {St Call A} (P : St -> Prop) (m : Eff St Call A) : Prop :=
  forall s, P s -> P (exec m s).

Arguments ret {St Call A} a.
Arguments bind {St Call A B} m k.
Arguments get {St Call}.
Arguments modify {St Call} f.
Arguments call {St Call} c.
Arguments when {St Call} b m.
Arguments result {St Call A} m s.
Arguments exec {St Call A} m s.
Arguments calls {St Call A} m s.

Declare Scope eff_scope.
Delimit Scope eff_scope with eff.
Notation "x <- m ;; k" := (bind m (fun x => k))
  (at level 61, m at next level, right associativity) : eff_scope.
Notation "m ;; k" := (bind m (fun _ => k))
  (at level 61, right associativity) : eff_scope.
Open Scope eff_scope.

(** ** Host data *)

(** The fields of a DOM [MouseEvent] that the library reads. *)
Record MouseEvent : Type := mkEvent {
  clientX : R;
  clientY : R;
  button : Z
}.

(** A [{x, y}] object. *)
Record Pos : Type := mkPos { pos_x : R; pos_y : R }.

(** ** ClickCounter *)

Module ClickCounter.

(** The [options] argument of the constructor: [timeWindow] is absent
    ([undefined]) or a number of milliseconds; [callback] is present or
    not (the function itself is opaque, its invocations are traced). *)
Record Options : Type := mkOptions {
  opt_timeWindow : option Z;
  opt_callback : bool
}.

Record t : Type := mk {
  timeWindow : Z;
  callback : bool;
  clicks : list Z
}.

(** [this.callback(count, event)] *)
Definition Call : Type := (nat * MouseEvent)%type.

Definition set_clicks (l : list Z) (s : t) : t :=
  mk (timeWindow s) (callback s) l.

(** [options.timeWindow || 2000]: [undefined] and [0] are falsy. *)
Definition timeWindow_or_default (o : option Z) : Z :=
  match o with
  | Some w => if (w =? 0)%Z then 2000%Z else w
  | None => 2000%Z
  end.

(** [constructor(element, options = {})] *)
Definition new (options : Options) : t :=
  mk (timeWindow_or_default (opt_timeWindow options))
     (opt_callback options)
     [].

(** [time => now - time < this.timeWindow] *)
Definition in_window (now window : Z) (time : Z) : bool :=
  (now - time <? window)%Z.

Definition handleClick (now : Z) (event : MouseEvent) : Eff t Call unit :=
  modify (fun s => set_clicks (filter (in_window now (timeWindow s)) (clicks s)) s) ;;
  modify (fun s => set_clicks (clicks s ++ [now]) s) ;;
  s <- get ;;
  when (callback s) (call (List.length (clicks s), event)).

Definition getCount (now : Z) : Eff t Call nat :=
  modify (fun s => set_clicks (filter (in_window now (timeWindow s)) (clicks s)) s) ;;
  s <- get ;;
  ret (List.length (clicks s)).

Definition reset : Eff t Call unit :=
  modify (set_clicks []).

(** The contract in the words of the specification: append the current
    time, then evict every entry with [now - timestamp >= window]. *)
Definition expired (now window : Z) (time : Z) : bool :=
  (now - time >=? window)%Z.

Definition record_spec (now window : Z) (log : list Z) : list Z :=
  filter (fun time => negb (expired now window time)) (log ++ [now]).

(** Test drivers: clicks delivered at the given clock readings, in
    order, to one counter. *)
Fixpoint record_all (times : list Z) (event : MouseEvent) : Eff t Call unit :=
  match times with
  | [] => ret tt
  | now :: rest => handleClick now event ;; record_all rest event
  end.

(** Two successive [getCount()] reads. *)
Definition read_twice (now1 now2 : Z) : Eff t Call (nat * nat) :=
  a <- getCount now1 ;;
  b <- getCount now2 ;;
  ret (a, b).

End ClickCounter.

(** ** DragAndDrop *)

Module DragAndDrop.

(** Which of the optional [callbacks] the caller supplied. *)
Record Callbacks : Type := mkCallbacks {
  onStart : bool;
  onDrag : bool;
  onEnd : bool
}.

(** The host's listener registry, restricted to what this class uses:
    the two targets ([this.element] and [document]), the three event
    types, and the three bound methods. *)
Inductive Target : Type := Element | Document.
Inductive EventType : Type := mousedown | mousemove | mouseup.
Inductive Handler : Type := HandleMouseDown | HandleMouseMove | HandleMouseUp.

Record Listener : Type := mkListener {
  l_target : Target;
  l_type : EventType;
  l_handler : Handler
}.

Definition target_eqb (a b : Target) : bool :=
  match a, b with
  | Element, Element | Document, Document => true
  | _, _ => false
  end.

Definition type_eqb (a b : EventType) : bool :=
  match a, b with
  | mousedown, mousedown | mousemove, mousemove | mouseup, mouseup => true
  | _, _ => false
  end.

Definition handler_eqb (a b : Handler) : bool :=
  match a, b with
  | HandleMouseDown, HandleMouseDown
  | HandleMouseMove, HandleMouseMove
  | HandleMouseUp, HandleMouseUp => true
  | _, _ => false
  end.

Definition listener_eqb (a b : Listener) : bool :=
  target_eqb (l_target a) (l_target b)
  && type_eqb (l_type a) (l_type b)
  && handler_eqb (l_handler a) (l_handler b).

Record t : Type := mk {
  callbacks : Callbacks;
  isDragging : bool;
  startPos : Pos;
  currentPos : Pos;
  listeners : list Listener
}.

Inductive Call : Type :=
| OnStart (event : MouseEvent) (start : Pos)
| OnDrag (event : MouseEvent) (current delta : Pos)
| OnEnd (event : MouseEvent) (current delta : Pos).

Definition set_isDragging (b : bool) (s : t) : t :=
  mk (callbacks s) b (startPos s) (currentPos s) (listeners s).
Definition set_startPos (p : Pos) (s : t) : t :=
  mk (callbacks s) (isDragging s) p (currentPos s) (listeners s).
Definition set_currentPos (p : Pos) (s : t) : t :=
  mk (callbacks s) (isDragging s) (startPos s) p (listeners s).
Definition set_listeners (l : list Listener) (s : t) : t :=
  mk (callbacks s) (isDragging s) (startPos s) (currentPos s) l.

(** [target.addEventListener(type, handler)]: registering a listener that
    is already registered does nothing. *)
Definition addEventListener (tg : Target) (ty : EventType) (h : Handler)
  : Eff t Call unit :=
  modify (fun s =>
    if existsb (listener_eqb (mkListener tg ty h)) (listeners s) then s
    else set_listeners (listeners s ++ [mkListener tg ty h]) s).

(** [target.removeEventListener(type, handler)]: removing a listener that
    is not registered does nothing. *)
Definition removeEventListener (tg : Target) (ty : EventType) (h : Handler)
  : Eff t Call unit :=
  modify (fun s =>
    set_listeners
      (filter (fun l => negb (listener_eqb (mkListener tg ty h) l))
         (listeners s)) s).

Definition delta_of (s : t) : Pos :=
  mkPos (pos_x (currentPos s) - pos_x (startPos s))
        (pos_y (currentPos s) - pos_y (startPos s)).

Definition handleMouseDown (event : MouseEvent) : Eff t Call unit :=
  modify (set_isDragging true) ;;
  modify (set_startPos (mkPos (clientX event) (clientY event))) ;;
  modify (fun s => set_currentPos (startPos s) s) ;;
  s <- get ;;
  when (onStart (callbacks s)) (call (OnStart event (startPos s))) ;;
  addEventListener Document mousemove HandleMouseMove ;;
  addEventListener Document mouseup HandleMouseUp.

Definition handleMouseMove (event : MouseEvent) : Eff t Call unit :=
  s <- get ;;
  if negb (isDragging s) then ret tt
  else
    modify (set_currentPos (mkPos (clientX event) (clientY event))) ;;
    s <- get ;;
    when (onDrag (callbacks s))
         (call (OnDrag event (currentPos s) (delta_of s))).

Definition handleMouseUp (event : MouseEvent) : Eff t Call unit :=
  s <- get ;;
  if negb (isDragging s) then ret tt
  else
    modify (set_isDragging false) ;;
    s <- get ;;
    when (onEnd (callbacks s))
         (call (OnEnd event (currentPos s) (delta_of s))) ;;
    removeEventListener Document mousemove HandleMouseMove ;;
    removeEventListener Document mouseup HandleMouseUp.

Definition start : Eff t Call unit :=
  addEventListener Element mousedown HandleMouseDown.

Definition stop : Eff t Call unit :=
  removeEventListener Element mousedown HandleMouseDown ;;
  removeEventListener Document mousemove HandleMouseMove ;;
  removeEventListener Document mouseup HandleMouseUp.

(** [constructor(element, callbacks = {})], on a host where nothing is
    registered yet. *)
Definition new (cbs : Callbacks) : t :=
  exec start (mk cbs false (mkPos 0 0) (mkPos 0 0) []).

(** Event delivery by the host.  A mouse event is fired at a node that is
    either inside [this.element] or not, and bubbles up to [document]:
    the listeners registered for its type run, those on the element
    first. *)
Definition run_handler (h : Handler) (event : MouseEvent) : Eff t Call unit :=
  match h with
  | HandleMouseDown => handleMouseDown event
  | HandleMouseMove => handleMouseMove event
  | HandleMouseUp => handleMouseUp event
  end.

Fixpoint run_handlers (hs : list Handler) (event : MouseEvent)
  : Eff t Call unit :=
  match hs with
  | [] => ret tt
  | h :: rest => run_handler h event ;; run_handlers rest event
  end.

Definition listening (tg : Target) (ty : EventType) (s : t) : list Handler :=
  map l_handler
    (filter (fun l => target_eqb tg (l_target l) && type_eqb ty (l_type l))
       (listeners s)).

Definition dispatch (inside : bool) (ty : EventType) (event : MouseEvent)
  : Eff t Call unit :=
  s <- get ;;
  run_handlers
    ((if inside then listening Element ty s else [])
       ++ listening Document ty s)
    event.

(** What can happen to a tracker: the host delivers an event, or the
    owner calls [start()] or [stop()]. *)
Inductive Input : Type :=
| Deliver (inside : bool) (ty : EventType) (event : MouseEvent)
| Start
| Stop.

Definition step (i : Input) : Eff t Call unit :=
  match i with
  | Deliver inside ty event => dispatch inside ty event
  | Start => start
  | Stop => stop
  end.

Fixpoint run (inputs : list Input) : Eff t Call unit :=
  match inputs with
  | [] => ret tt
  | i :: rest => step i ;; run rest
  end.

(** A run in which the host only delivers events. *)
Definition deliveries (evs : list (bool * EventType * MouseEvent))
  : list Input :=
  map (fun e => Deliver (fst (fst e)) (snd (fst e)) (snd e)) evs.

(** All three callbacks supplied. *)
Definition all_callbacks : Callbacks := mkCallbacks true true true.

End DragAndDrop.

(** The listeners a tracker registers for itself. *)
Definition own_listener (l : DragAndDrop.Listener) : Prop :=
  l = DragAndDrop.mkListener DragAndDrop.Element DragAndDrop.mousedown
        DragAndDrop.HandleMouseDown
  \/ l = DragAndDrop.mkListener DragAndDrop.Document DragAndDrop.mousemove
           DragAndDrop.HandleMouseMove
  \/ l = DragAndDrop.mkListener DragAndDrop.Document DragAndDrop.mouseup
           DragAndDrop.HandleMouseUp.

Definition own_listeners (s : DragAndDrop.t) : Prop :=
  Forall own_listener (DragAndDrop.listeners s).

(** ** MouseButtons *)

Module MouseButtons.

(** [this.buttons] *)
Record t : Type := mk {
  left : bool;
  right : bool;
  middle : bool
}.

Definition new : t := mk false false false.

Definition handleMouseDown (event : MouseEvent) (s : t) : t :=
  match button event with
  | 0%Z => mk true (right s) (middle s)
  | 1%Z => mk (left s) (right s) true
  | 2%Z => mk (left s) true (middle s)
  | _ => s
  end.

Definition handleMouseUp (event : MouseEvent) (s : t) : t :=
  match button event with
  | 0%Z => mk false (right s) (middle s)
  | 1%Z => mk (left s) (right s) false
  | 2%Z => mk (left s) false (middle s)
  | _ => s
  end.

(** [this.buttons[button] || false], for the own keys of [this.buttons]
    and for keys that name no property. *)
Definition isPressed (name : string) (s : t) : bool :=
  if String.eqb name "left" then left s
  else if String.eqb name "right" then right s
  else if String.eqb name "middle" then middle s
  else false.

(** The index-to-name mapping as the specification gives it. *)
Definition button_name (index : Z) : option string :=
  match index with
  | 0%Z => Some "left"%string
  | 1%Z => Some "middle"%string
  | 2%Z => Some "right"%string
  | _ => None
  end.

End MouseButtons.

(** ** Host mathematics *)

(** [Math.atan2(y, x)] on real arguments: the angle of the point [(x, y)],
    in radians. *)
Definition atan2 (y x : R) : R :=
  (if Rlt_dec 0 x then atan (y / x)
   else if Rlt_dec x 0 then
     if Rle_dec 0 y then atan (y / x) + PI else atan (y / x) - PI
   else if Rlt_dec 0 y then PI / 2
   else if Rlt_dec y 0 then - (PI / 2)
   else 0)%R.

(** ** MovementTracker *)

Module MovementTracker.

Local Open Scope R_scope.

(** The object handed to the callback. *)
Record Sample : Type := mkSample {
  sample_velocity : Pos;
  sample_speed : R;
  sample_angle : R;
  sample_position : Pos
}.

Record t : Type := mk {
  callback : bool;
  lastPos : Pos;
  lastTime : Z;
  velocity : Pos
}.

Definition Call : Type := Sample.

Definition set_velocity (v : Pos) (s : t) : t :=
  mk (callback s) (lastPos s) (lastTime s) v.
Definition set_lastPos (p : Pos) (s : t) : t :=
  mk (callback s) p (lastTime s) (velocity s).
Definition set_lastTime (time : Z) (s : t) : t :=
  mk (callback s) (lastPos s) time (velocity s).

(** [constructor(element = document, callback)], with the clock reading
    [now] at construction. *)
Definition new (now : Z) (cb : bool) : t :=
  mk cb (mkPos 0 0) now (mkPos 0 0).

Definition handleMove (currentTime : Z) (event : MouseEvent)
  : Eff t Call unit :=
  s <- get ;;
  let deltaTime := (currentTime - lastTime s)%Z in
  (if (0 <? deltaTime)%Z then
     let deltaX := clientX event - pos_x (lastPos s) in
     let deltaY := clientY event - pos_y (lastPos s) in
     modify (set_velocity
               (mkPos (deltaX / IZR deltaTime) (deltaY / IZR deltaTime))) ;;
     s <- get ;;
     let speed := sqrt (pos_x (velocity s) ^ 2 + pos_y (velocity s) ^ 2) in
     let angle := atan2 deltaY deltaX * (180 / PI) in
     when (callback s)
          (call (mkSample (velocity s) speed angle
                   (mkPos (clientX event) (clientY event))))
   else ret tt) ;;
  modify (set_lastPos (mkPos (clientX event) (clientY event))) ;;
  modify (set_lastTime currentTime).

Definition getVelocity (s : t) : Pos := velocity s.

End MovementTracker.

(** ** CustomCursor *)

Module CustomCursor.

Local Open Scope R_scope.

(** The [options] argument: [smooth] absent or a boolean, [offset] absent
    or a position. *)
Record Options : Type := mkOptions {
  opt_smooth : option bool;
  opt_offset : option Pos
}.

(** [animationFrame] is [null] or the handle of the pending frame
    request; [nextHandle] is the handle the host hands out next. *)
Record t : Type := mk {
  smooth : bool;
  offset : Pos;
  currentPos : Pos;
  targetPos : Pos;
  animationFrame : option nat;
  listening : bool;
  nextHandle : nat
}.

(** Calls into the host: the assignment to [cursor.style.transform],
    which renders [translate(<x>px, <y>px)], and the frame scheduler. *)
Inductive Call : Type :=
| SetTransform (x y : R)
| RequestAnimationFrame (handle : nat)
| CancelAnimationFrame (handle : nat).

Definition set_currentPos (p : Pos) (s : t) : t :=
  mk (smooth s) (offset s) p (targetPos s) (animationFrame s)
     (listening s) (nextHandle s).
Definition set_targetPos (p : Pos) (s : t) : t :=
  mk (smooth s) (offset s) (currentPos s) p (animationFrame s)
     (listening s) (nextHandle s).
Definition set_animationFrame (h : option nat) (s : t) : t :=
  mk (smooth s) (offset s) (currentPos s) (targetPos s) h
     (listening s) (nextHandle s).
Definition set_listening (b : bool) (s : t) : t :=
  mk (smooth s) (offset s) (currentPos s) (targetPos s) (animationFrame s)
     b (nextHandle s).
Definition set_nextHandle (n : nat) (s : t) : t :=
  mk (smooth s) (offset s) (currentPos s) (targetPos s) (animationFrame s)
     (listening s) n.

Definition updateCursor : Eff t Call unit :=
  s <- get ;;
  call (SetTransform (pos_x (currentPos s)) (pos_y (currentPos s))).

(** [requestAnimationFrame(this.update)] *)
Definition requestAnimationFrame : Eff t Call nat :=
  s <- get ;;
  call (RequestAnimationFrame (nextHandle s)) ;;
  modify (set_nextHandle (S (nextHandle s))) ;;
  ret (nextHandle s).

Definition handleMove (event : MouseEvent) : Eff t Call unit :=
  modify (fun s =>
    set_targetPos (mkPos (clientX event + pos_x (offset s))
                         (clientY event + pos_y (offset s))) s) ;;
  s <- get ;;
  if negb (smooth s) then
    modify (fun s => set_currentPos (targetPos s) s) ;;
    updateCursor
  else ret tt.

Definition update : Eff t Call unit :=
  s <- get ;;
  if smooth s then
    modify (fun s =>
      set_currentPos
        (mkPos (pos_x (currentPos s)
                + (pos_x (targetPos s) - pos_x (currentPos s)) * 0.3)
               (pos_y (currentPos s))) s) ;;
    modify (fun s =>
      set_currentPos
        (mkPos (pos_x (currentPos s))
               (pos_y (currentPos s)
                + (pos_y (targetPos s) - pos_y (currentPos s)) * 0.3)) s) ;;
    updateCursor ;;
    h <- requestAnimationFrame ;;
    modify (set_animationFrame (Some h))
  else ret tt.

Definition start : Eff t Call unit :=
  modify (set_listening true) ;;
  s <- get ;;
  if smooth s then
    h <- requestAnimationFrame ;;
    modify (set_animationFrame (Some h))
  else ret tt.

Definition stop : Eff t Call unit :=
  modify (set_listening false) ;;
  s <- get ;;
  match animationFrame s with
  | Some h => call (CancelAnimationFrame h)
  | None => ret tt
  end.

(** [constructor(cursorElement, options = {})], up to the call of
    [this.start()]: [smooth] defaults to true ([options.smooth !== false]),
    [offset] to the origin.  [handle] is the host's next frame handle. *)
Definition init (options : Options) (handle : nat) : t :=
  mk (match opt_smooth options with Some b => b | None => true end)
     (match opt_offset options with Some p => p | None => mkPos 0 0 end)
     (mkPos 0 0) (mkPos 0 0) None false handle.

Definition new (options : Options) (handle : nat) : t :=
  exec start (init options handle).

End CustomCursor.

(** ** MousePosition *)

Module MousePosition.

(** [this.position] is one [{x, y}] object, created by the constructor and
    written in place ever after; the callback and [getPosition()] hand out
    that object itself, not a copy.  Objects therefore live in a heap and
    are named by their index. *)
Definition Ref : Type := nat.

Record t : Type := mk {
  callback : bool;
  position : Ref;
  listening : bool;
  heap : list Pos
}.

(** [this.callback(this.position)] *)
Definition Call : Type := Ref.

Definition set_heap (h : list Pos) (s : t) : t :=
  mk (callback s) (position s) (listening s) h.
Definition set_listening (b : bool) (s : t) : t :=
  mk (callback s) (position s) b (heap s).

(** Assignment to a field of the object at [r]. *)
Fixpoint update (r : Ref) (f : Pos -> Pos) (h : list Pos) : list Pos :=
  match h, r with
  | [], _ => []
  | p :: rest, O => f p :: rest
  | p :: rest, S r' => p :: update r' f rest
  end.

Definition write_x (v : R) (p : Pos) : Pos := mkPos v (pos_y p).
Definition write_y (v : R) (p : Pos) : Pos := mkPos (pos_x p) v.

Definition deref (s : t) (r : Ref) : option Pos := nth_error (heap s) r.

Definition handleMove (event : MouseEvent) : Eff t Call unit :=
  modify (fun s =>
    set_heap (update (position s) (write_x (clientX event)) (heap s)) s) ;;
  modify (fun s =>
    set_heap (update (position s) (write_y (clientY event)) (heap s)) s) ;;
  s <- get ;;
  when (callback s) (call (position s)).

Definition start : Eff t Call unit := modify (set_listening true).
Definition stop : Eff t Call unit := modify (set_listening false).

(** [constructor(element = document, callback)], in a heap that already
    holds the objects [h]: the position object is allocated after them. *)
Definition new (cb : bool) (h : list Pos) : t :=
  exec start (mk cb (List.length h) false (h ++ [mkPos 0 0])).

Definition getPosition (s : t) : Ref := position s.

(** Delivery of a [mousemove] event by the host. *)
Definition deliver (event : MouseEvent) : Eff t Call unit :=
  s <- get ;;
  if listening s then handleMove event else ret tt.

Fixpoint moves (events : list MouseEvent) : Eff t Call unit :=
  match events with
  | [] => ret tt
  | e :: rest => deliver e ;; moves rest
  end.

End MousePosition.

(** ** ClickDetector *)

Module ClickDetector.

Record Callbacks : Type := mkCallbacks {
  onClick : bool;
  onDoubleClick : bool;
  onRightClick : bool
}.

(** The three listeners of the element, each registered or not. *)
Record t : Type := mk {
  callbacks : Callbacks;
  on_click : bool;
  on_dblclick : bool;
  on_contextmenu : bool
}.

Inductive Call : Type :=
| OnClick (event : MouseEvent)
| OnDoubleClick (event : MouseEvent)
| PreventDefault (event : MouseEvent)
| OnRightClick (event : MouseEvent).

Inductive EventType : Type := click | dblclick | contextmenu.

Definition handleClick (event : MouseEvent) : Eff t Call unit :=
  s <- get ;;
  when (onClick (callbacks s)) (call (OnClick event)).

Definition handleDoubleClick (event : MouseEvent) : Eff t Call unit :=
  s <- get ;;
  when (onDoubleClick (callbacks s)) (call (OnDoubleClick event)).

Definition handleContextMenu (event : MouseEvent) : Eff t Call unit :=
  s <- get ;;
  when (onRightClick (callbacks s))
       (call (PreventDefault event) ;; call (OnRightClick event)).

Definition start : Eff t Call unit :=
  modify (fun s => mk (callbacks s) true (on_dblclick s) (on_contextmenu s)) ;;
  modify (fun s => mk (callbacks s) (on_click s) true (on_contextmenu s)) ;;
  modify (fun s => mk (callbacks s) (on_click s) (on_dblclick s) true).

Definition stop : Eff t Call unit :=
  modify (fun s => mk (callbacks s) false (on_dblclick s) (on_contextmenu s)) ;;
  modify (fun s => mk (callbacks s) (on_click s) false (on_contextmenu s)) ;;
  modify (fun s => mk (callbacks s) (on_click s) (on_dblclick s) false).

Definition new (cbs : Callbacks) : t :=
  exec start (mk cbs false false false).

Definition dispatch (ty : EventType) (event : MouseEvent) : Eff t Call unit :=
  s <- get ;;
  match ty with
  | click => if on_click s then handleClick event else ret tt
  | dblclick => if on_dblclick s then handleDoubleClick event else ret tt
  | contextmenu =>
      if on_contextmenu s then handleContextMenu event else ret tt
  end.

Inductive Input : Type :=
| Deliver (ty : EventType) (event : MouseEvent)
| Start
| Stop.

Definition step (i : Input) : Eff t Call unit :=
  match i with
  | Deliver ty event => dispatch ty event
  | Start => start
  | Stop => stop
  end.

Fixpoint run (inputs : list Input) : Eff t Call unit :=
  match inputs with
  | [] => ret tt
  | i :: rest => step i ;; run rest
  end.

Definition is_prevent (c : Call) : bool :=
  match c with PreventDefault _ => true | _ => false end.

Definition is_right_click (c : Call) : bool :=
  match c with OnRightClick _ => true | _ => false end.

(** A default action is suppressed only on behalf of a right-click
    callback, which is called next with the same event. *)
Fixpoint prevent_then_callback (trace : list Call) : Prop :=
  match trace with
  | [] => True
  | PreventDefault e :: rest =>
      match rest with
      | OnRightClick e' :: rest' => e' = e /\ prevent_then_callback rest'
      | _ => False
      end
  | OnRightClick _ :: _ => False
  | _ :: rest => prevent_then_callback rest
  end.

End ClickDetector.

(** ** HoverTracker *)

Module HoverTracker.

Record Callbacks : Type := mkCallbacks {
  onEnter : bool;
  onLeave : bool
}.

Record t : Type := mk {
  callbacks : Callbacks;
  isHovering : bool;
  on_mouseenter : bool;
  on_mouseleave : bool
}.

Inductive Call : Type :=
| OnEnter (event : MouseEvent)
| OnLeave (event : MouseEvent).

Definition set_isHovering (b : bool) (s : t) : t :=
  mk (callbacks s) b (on_mouseenter s) (on_mouseleave s).

Definition handleEnter (event : MouseEvent) : Eff t Call unit :=
  modify (set_isHovering true) ;;
  s <- get ;;
  when (onEnter (callbacks s)) (call (OnEnter event)).

Definition handleLeave (event : MouseEvent) : Eff t Call unit :=
  modify (set_isHovering false) ;;
  s <- get ;;
  when (onLeave (callbacks s)) (call (OnLeave event)).

Definition start : Eff t Call unit :=
  modify (fun s => mk (callbacks s) (isHovering s) true (on_mouseleave s)) ;;
  modify (fun s => mk (callbacks s) (isHovering s) (on_mouseenter s) true).

Definition stop : Eff t Call unit :=
  modify (fun s => mk (callbacks s) (isHovering s) false (on_mouseleave s)) ;;
  modify (fun s => mk (callbacks s) (isHovering s) (on_mouseenter s) false).

Definition new (cbs : Callbacks) : t :=
  exec start (mk cbs false false false).

Definition getHoverState (s : t) : bool := isHovering s.

Inductive Input : Type :=
| Enter (event : MouseEvent)
| Leave (event : MouseEvent)
| Start
| Stop.

Definition step (i : Input) : Eff t Call unit :=
  match i with
  | Enter event =>
      s <- get ;; if on_mouseenter s then handleEnter event else ret tt
  | Leave event =>
      s <- get ;; if on_mouseleave s then handleLeave event else ret tt
  | Start => start
  | Stop => stop
  end.

Fixpoint run (inputs : list Input) : Eff t Call unit :=
  match inputs with
  | [] => ret tt
  | i :: rest => step i ;; run rest
  end.

End HoverTracker.

(** ** MouseEnterLeave *)

Module MouseEnterLeave.

Record Callbacks : Type := mkCallbacks {
  onEnter : bool;
  onLeave : bool
}.

Record t : Type := mk {
  callbacks : Callbacks;
  isInside : bool;
  on_mouseenter : bool;
  on_mouseleave : bool
}.

Inductive Call : Type :=
| OnEnter (event : MouseEvent)
| OnLeave (event : MouseEvent).

Definition set_isInside (b : bool) (s : t) : t :=
  mk (callbacks s) b (on_mouseenter s) (on_mouseleave s).

Definition handleEnter (event : MouseEvent) : Eff t Call unit :=
  modify (set_isInside true) ;;
  s <- get ;;
  when (onEnter (callbacks s)) (call (OnEnter event)).

Definition handleLeave (event : MouseEvent) : Eff t Call unit :=
  modify (set_isInside false) ;;
  s <- get ;;
  when (onLeave (callbacks s)) (call (OnLeave event)).

Definition start : Eff t Call unit :=
  modify (fun s => mk (callbacks s) (isInside s) true (on_mouseleave s)) ;;
  modify (fun s => mk (callbacks s) (isInside s) (on_mouseenter s) true).

Definition stop : Eff t Call unit :=
  modify (fun s => mk (callbacks s) (isInside s) false (on_mouseleave s)) ;;
  modify (fun s => mk (callbacks s) (isInside s) (on_mouseenter s) false).

Definition new (cbs : Callbacks) : t :=
  exec start (mk cbs false false false).

Definition isMouseInside (s : t) : bool := isInside s.

Inductive Input : Type :=
| Enter (event : MouseEvent)
| Leave (event : MouseEvent)
| Start
| Stop.

Definition step (i : Input) : Eff t Call unit :=
  match i with
  | Enter event =>
      s <- get ;; if on_mouseenter s then handleEnter event else ret tt
  | Leave event =>
      s <- get ;; if on_mouseleave s then handleLeave event else ret tt
  | Start => start
  | Stop => stop
  end.

Fixpoint run (inputs : list Input) : Eff t Call unit :=
  match inputs with
  | [] => ret tt
  | i :: rest => step i ;; run rest
  end.

End MouseEnterLeave.

(** ** ScrollWheel *)

Module ScrollWheel.

Local Open Scope R_scope.

(** The fields of a [WheelEvent] that the handler reads; [deltaZ] may be
    missing on a synthetic event. *)
Record WheelEvent : Type := mkWheel {
  deltaX : R;
  deltaY : R;
  deltaZ : option R
}.

Inductive Direction : Type := down | up.

Record Data : Type := mkData {
  data_deltaX : R;
  data_deltaY : R;
  data_deltaZ : R;
  direction : Direction
}.

Record t : Type := mk {
  callback : bool;
  listening : bool
}.

(** [this.callback(data, event)] *)
Definition Call : Type := (Data * WheelEvent)%type.

Definition handleWheel (event : WheelEvent) : Eff t Call unit :=
  let data :=
    mkData (deltaX event) (deltaY event)
           (match deltaZ event with Some z => z | None => 0 end)
           (if Rlt_dec 0 (deltaY event) then down else up) in
  s <- get ;;
  when (callback s) (call (data, event)).

Definition start : Eff t Call unit :=
  modify (fun s => mk (callback s) true).
Definition stop : Eff t Call unit :=
  modify (fun s => mk (callback s) false).

Definition new (cb : bool) : t := exec start (mk cb false).

Definition deliver (event : WheelEvent) : Eff t Call unit :=
  s <- get ;;
  if listening s then handleWheel event else ret tt.

End ScrollWheel.

(** ** Runs and measures used in the further properties *)

Module DragTrace.

Definition is_start (c : DragAndDrop.Call) : bool :=
  match c with DragAndDrop.OnStart _ _ => true | _ => false end.

Definition is_end (c : DragAndDrop.Call) : bool :=
  match c with DragAndDrop.OnEnd _ _ _ => true | _ => false end.

(** How often [onStart] and [onEnd] were called in a trace. *)
Definition starts (trace : list DragAndDrop.Call) : nat :=
  List.length (filter is_start trace).
Definition ends (trace : list DragAndDrop.Call) : nat :=
  List.length (filter is_end trace).

Definition dragging (s : DragAndDrop.t) : nat :=
  if DragAndDrop.isDragging s then 1%nat else 0%nat.

Definition on_mousedown : DragAndDrop.Listener :=
  DragAndDrop.mkListener DragAndDrop.Element DragAndDrop.mousedown
    DragAndDrop.HandleMouseDown.
Definition on_mousemove : DragAndDrop.Listener :=
  DragAndDrop.mkListener DragAndDrop.Document DragAndDrop.mousemove
    DragAndDrop.HandleMouseMove.
Definition on_mouseup : DragAndDrop.Listener :=
  DragAndDrop.mkListener DragAndDrop.Document DragAndDrop.mouseup
    DragAndDrop.HandleMouseUp.

(** The registry after [addEventListener] and after
    [removeEventListener]. *)
Definition add_listener (l : DragAndDrop.Listener)
  (ls : list DragAndDrop.Listener) : list DragAndDrop.Listener :=
  if existsb (DragAndDrop.listener_eqb l) ls then ls else ls ++ [l].

Definition remove_listener (l : DragAndDrop.Listener)
  (ls : list DragAndDrop.Listener) : list DragAndDrop.Listener :=
  filter (fun l' => negb (DragAndDrop.listener_eqb l l')) ls.

(** The registry holds nothing but the tracker's own listeners, each at
    most once, and the two document-level ones only together and only
    while a drag is in progress. *)
Definition tidy (s : DragAndDrop.t) : Prop :=
  NoDup (DragAndDrop.listeners s)
  /\ Forall own_listener (DragAndDrop.listeners s)
  /\ (In on_mousemove (DragAndDrop.listeners s) <->
      In on_mouseup (DragAndDrop.listeners s))
  /\ (In on_mousemove (DragAndDrop.listeners s) ->
      DragAndDrop.isDragging s = true).

(** A computation keeps [onEnd] from overtaking [onStart]: the calls of
    [onEnd] it makes, plus one if it leaves a drag in progress, are covered
    by the calls of [onStart] it makes, plus one if a drag was in progress
    before. *)
Definition balanced {A} (m : Eff DragAndDrop.t DragAndDrop.Call A) : Prop :=
  forall s,
    DragAndDrop.onStart (DragAndDrop.callbacks s) = true ->
    DragAndDrop.onStart (DragAndDrop.callbacks (exec m s)) = true
    /\ (ends (calls m s) + dragging (exec m s) <=
        starts (calls m s) + dragging s)%nat.

(** The position an event carries, and the difference of two positions. *)
Definition event_pos (e : MouseEvent) : Pos := mkPos (clientX e) (clientY e).
Definition pos_minus (p q : Pos) : Pos :=
  mkPos (pos_x p - pos_x q) (pos_y p - pos_y q).

(** A whole gesture: a press inside the element, moves anywhere, a
    release. *)
Definition gesture (press : MouseEvent) (moves : list (bool * MouseEvent))
  (inside : bool) (release : MouseEvent) : list DragAndDrop.Input :=
  DragAndDrop.Deliver true DragAndDrop.mousedown press
  :: map (fun m => DragAndDrop.Deliver (fst m) DragAndDrop.mousemove (snd m))
       moves
  ++ [DragAndDrop.Deliver inside DragAndDrop.mouseup release].

End DragTrace.

Module ButtonRuns.

Inductive Input : Type :=
| Press (event : MouseEvent)
| Release (event : MouseEvent).

Definition step (s : MouseButtons.t) (i : Input) : MouseButtons.t :=
  match i with
  | Press event => MouseButtons.handleMouseDown event s
  | Release event => MouseButtons.handleMouseUp event s
  end.

Definition run (inputs : list Input) (s : MouseButtons.t) : MouseButtons.t :=
  fold_left step inputs s.

Definition index_of (i : Input) : Z :=
  match i with Press event | Release event => button event end.

Definition is_press (i : Input) : bool :=
  match i with Press _ => true | Release _ => false end.

(** Whether the latest input with button index [index] is a press; the
    value [initial] when there is none. *)
Fixpoint latest (index : Z) (initial : bool) (inputs : list Input) : bool :=
  match inputs with
  | [] => initial
  | i :: rest =>
      latest index
        (if (index_of i =? index)%Z then is_press i else initial) rest
  end.

End ButtonRuns.

Module CursorRuns.


(** Move events handled in a row. *)
Fixpoint moves (events : list MouseEvent)
  : Eff CustomCursor.t CustomCursor.Call unit :=
  match events with
  | [] => ret tt
  | e :: rest => CustomCursor.handleMove e ;; moves rest
  end.


End CursorRuns.

Module HoverRuns.

(** An enter ([true]) or leave ([false]) event as an input of either
    class. *)
Definition hover_input (e : bool * MouseEvent) : HoverTracker.Input :=
  if fst e then HoverTracker.Enter (snd e) else HoverTracker.Leave (snd e).

(** The callback calls one event gives rise to, given which callbacks
    were supplied. *)
Definition hover_calls (cbs : HoverTracker.Callbacks) (e : bool * MouseEvent)
  : list HoverTracker.Call :=
  if fst e then
    if HoverTracker.onEnter cbs then [HoverTracker.OnEnter (snd e)] else []
  else
    if HoverTracker.onLeave cbs then [HoverTracker.OnLeave (snd e)] else [].

(** The same inputs, callbacks and calls, read as those of
    [MouseEnterLeave]. *)
Definition as_callbacks (cbs : HoverTracker.Callbacks)
  : MouseEnterLeave.Callbacks :=
  MouseEnterLeave.mkCallbacks (HoverTracker.onEnter cbs)
    (HoverTracker.onLeave cbs).

Definition as_input (i : HoverTracker.Input) : MouseEnterLeave.Input :=
  match i with
  | HoverTracker.Enter e => MouseEnterLeave.Enter e
  | HoverTracker.Leave e => MouseEnterLeave.Leave e
  | HoverTracker.Start => MouseEnterLeave.Start
  | HoverTracker.Stop => MouseEnterLeave.Stop
  end.

Definition as_call (c : HoverTracker.Call) : MouseEnterLeave.Call :=
  match c with
  | HoverTracker.OnEnter e => MouseEnterLeave.OnEnter e
  | HoverTracker.OnLeave e => MouseEnterLeave.OnLeave e
  end.

Definition as_state (s : HoverTracker.t) : MouseEnterLeave.t :=
  MouseEnterLeave.mk (as_callbacks (HoverTracker.callbacks s))
    (HoverTracker.isHovering s) (HoverTracker.on_mouseenter s)
    (HoverTracker.on_mouseleave s).

End HoverRuns.

(** * Properties *)

(** ** ClickCounter *)

Lemma in_window_not_expired now window time :
  ClickCounter.in_window now window time =
  negb (ClickCounter.expired now window time).
Proof.
  unfold ClickCounter.in_window, ClickCounter.expired.
  rewrite Z.geb_leb.
  destruct (Z.ltb_spec (now - time) window), (Z.leb_spec window (now - time));
    simpl; try reflexivity; lia.
Qed.

Lemma filter_in_window_idem now window l :
  filter (ClickCounter.in_window now window)
    (filter (ClickCounter.in_window now window) l) =
  filter (ClickCounter.in_window now window) l.
Proof.
  induction l as [|a l IH]; simpl; [reflexivity|].
  destruct (ClickCounter.in_window now window a) eqn:E; simpl.
  - rewrite E, IH. reflexivity.
  - exact IH.
Qed.

Lemma filter_in_window_In now window l time :
  In time (filter (ClickCounter.in_window now window) l) <->
  In time l /\ (now - time < window)%Z.
Proof.
  rewrite filter_In. unfold ClickCounter.in_window.
  rewrite Z.ltb_lt. reflexivity.
Qed.

Lemma filter_in_window_ext now window l :
  filter (ClickCounter.in_window now window) l =
  filter (fun time => negb (ClickCounter.expired now window time)) l.
Proof.
  apply filter_ext. intro a. apply in_window_not_expired.
Qed.

Lemma exec_handleClick now ev s :
  exec (ClickCounter.handleClick now ev) s =
  ClickCounter.set_clicks
    (filter (ClickCounter.in_window now (ClickCounter.timeWindow s))
       (ClickCounter.clicks s) ++ [now]) s.
Proof.
  unfold exec, ClickCounter.handleClick, bind, modify, get, when.
  simpl. destruct (ClickCounter.callback s); reflexivity.
Qed.

Lemma calls_handleClick now ev s :
  calls (ClickCounter.handleClick now ev) s =
  if ClickCounter.callback s
  then [(List.length
           (filter (ClickCounter.in_window now (ClickCounter.timeWindow s))
              (ClickCounter.clicks s) ++ [now]), ev)]
  else [].
Proof.
  unfold calls, ClickCounter.handleClick, bind, modify, get, when.
  simpl. destruct (ClickCounter.callback s); reflexivity.
Qed.

Lemma run_getCount now s :
  ClickCounter.getCount now s =
  (List.length
     (filter (ClickCounter.in_window now (ClickCounter.timeWindow s))
        (ClickCounter.clicks s)),
   ClickCounter.set_clicks
     (filter (ClickCounter.in_window now (ClickCounter.timeWindow s))
        (ClickCounter.clicks s)) s,
   []).
Proof. reflexivity. Qed.

Lemma exec_seq {St Call A B} (m : Eff St Call A) (k : Eff St Call B) s :
  exec (m ;; k) s = exec k (exec m s).
Proof.
  unfold exec, bind. destruct (m s) as [[a s1] c1].
  simpl. destruct (k s1) as [[b s2] c2]. reflexivity.
Qed.

Lemma result_seq {St Call A B} (m : Eff St Call A) (k : Eff St Call B) s :
  result (m ;; k) s = result k (exec m s).
Proof.
  unfold result, exec, bind. destruct (m s) as [[a s1] c1].
  simpl. destruct (k s1) as [[b s2] c2]. reflexivity.
Qed.

Lemma exec_record_all_cons now rest ev s :
  exec (ClickCounter.record_all (now :: rest) ev) s =
  exec (ClickCounter.record_all rest ev)
       (exec (ClickCounter.handleClick now ev) s).
Proof. simpl. apply exec_seq. Qed.

Ltac decide_windows :=
  unfold ClickCounter.in_window;
  repeat match goal with
  | |- context [(?a <? ?b)%Z] => destruct (Z.ltb_spec a b); try lia; simpl
  end.

(** Clicks at [t], [t+1], [t+window-1] followed by a read at [t+window+1]:
    the first two are at least [window] old, the last one is 2 old. *)
Lemma three_clicks_then_read cb ev t window :
  (0 < window)%Z ->
  result (ClickCounter.record_all [t; t + 1; t + window - 1] ev ;;
          ClickCounter.getCount (t + window + 1))%Z
         (ClickCounter.new (ClickCounter.mkOptions (Some window) cb)) =
  if (2 <? window)%Z then 1%nat else 0%nat.
Proof.
  intro Hw.
  rewrite result_seq, !exec_record_all_cons, !exec_handleClick.
  unfold result. rewrite run_getCount.
  unfold ClickCounter.new. simpl.
  destruct (Z.eqb_spec window 0) as [E|_]; [lia|].
  decide_windows; reflexivity.
Qed.

Lemma reads_after_three_clicks cb ev :
  result (ClickCounter.record_all [0; 100; 200]%Z ev ;;
          ClickCounter.read_twice 250 1050)
         (ClickCounter.new (ClickCounter.mkOptions (Some 1000%Z) cb)) =
  (3%nat, 2%nat).
Proof.
  rewrite result_seq, !exec_record_all_cons, !exec_handleClick.
  reflexivity.
Qed.

(** C1, as amended.  With [window = 1000] and clicks recorded at times 0,
    100 and 200, a [getCount()] read at time 250 returns 3 and a following
    read at time 1050 returns 2: only the click at 0 is at least 1000 old.
    After clicks at [t], [t+1] and [t+window-1], a read at [t+window+1]
    returns 1 when [window > 2] (the last click is only 2 old) and 0 when
    [window] is 1 or 2. *)
Theorem C1_click_counts_in_window
  (cb : bool) (ev : MouseEvent) (t window : Z) (Hw : (0 < window)%Z) :
  result (ClickCounter.record_all [0; 100; 200]%Z ev ;;
          ClickCounter.read_twice 250 1050)
         (ClickCounter.new (ClickCounter.mkOptions (Some 1000%Z) cb)) =
  (3%nat, 2%nat)
  /\ result (ClickCounter.record_all [t; t + 1; t + window - 1] ev ;;
             ClickCounter.getCount (t + window + 1))%Z
            (ClickCounter.new (ClickCounter.mkOptions (Some window) cb)) =
     if (2 <? window)%Z then 1%nat else 0%nat.
Proof.
  split.
  - apply reads_after_three_clicks.
  - apply three_clicks_then_read. exact Hw.
Qed.

Lemma C1_click_counts_in_window_witness :
  (0 < 1000)%Z
  /\ result (ClickCounter.record_all [7; 7 + 1; 7 + 1000 - 1] (mkEvent 0 0 0) ;;
             ClickCounter.getCount (7 + 1000 + 1))%Z
            (ClickCounter.new (ClickCounter.mkOptions (Some 1000%Z) true)) =
     1%nat.
Proof.
  split; [lia|].
  exact (proj2 (@C1_click_counts_in_window true (mkEvent 0 0 0) 7 1000
                  ltac:(lia))).
Defined.

(** The read at time 1050 does not return 0: the clicks at 100 and 200 are
    950 and 850 old, both younger than the window of 1000. *)
Lemma C1_read_at_1050_counterexample :
  result (ClickCounter.record_all [0; 100; 200]%Z (mkEvent 0 0 0) ;;
          ClickCounter.read_twice 250 1050)
         (ClickCounter.new (ClickCounter.mkOptions (Some 1000%Z) true))
  <> (3%nat, 0%nat).
Proof.
  rewrite reads_after_three_clicks. discriminate.
Qed.

(** C2.  For every prior log and strictly positive window, a recorded click
    leaves the log equal to the old log without the entries having
    [now - timestamp >= window], followed by [now]; a registered observer
    is called exactly once, with the new log length and the event; and
    [getCount()] calls no observer.  For a positive window this is also
    what appending first and evicting afterwards yields. *)
Theorem C2_record_click
  (cb : bool) (window : Z) (log : list Z) (now : Z) (ev : MouseEvent)
  (Hw : (0 < window)%Z) :
  let s := ClickCounter.set_clicks log
             (ClickCounter.new (ClickCounter.mkOptions (Some window) cb)) in
  let log' :=
    filter (fun time => negb (ClickCounter.expired now window time)) log
      ++ [now] in
  exec (ClickCounter.handleClick now ev) s = ClickCounter.set_clicks log' s
  /\ calls (ClickCounter.handleClick now ev) s =
     (if cb then [(List.length log', ev)] else [])
  /\ log' = ClickCounter.record_spec now window log
  /\ forall now', calls (ClickCounter.getCount now') s = [].
Proof.
  intros s log'.
  assert (Hwin : ClickCounter.timeWindow s = window).
  { simpl. destruct (Z.eqb_spec window 0); [lia|reflexivity]. }
  repeat split.
  - rewrite exec_handleClick, Hwin. simpl ClickCounter.clicks.
    rewrite filter_in_window_ext. reflexivity.
  - rewrite calls_handleClick, Hwin. simpl ClickCounter.clicks.
    rewrite filter_in_window_ext. reflexivity.
  - unfold log', ClickCounter.record_spec. rewrite filter_app. simpl.
    replace (ClickCounter.expired now window now) with false; [reflexivity|].
    unfold ClickCounter.expired. rewrite Z.geb_leb.
    symmetry. apply Z.leb_gt. lia.
Qed.

Lemma C2_record_click_witness :
  (0 < 1000)%Z
  /\ exec (ClickCounter.handleClick 1500 (mkEvent 3 4 0))
          (ClickCounter.set_clicks [100; 600; 900]%Z
             (ClickCounter.new (ClickCounter.mkOptions (Some 1000%Z) true))) =
     ClickCounter.mk 1000 true [600; 900; 1500]%Z.
Proof.
  split; [lia|].
  exact (proj1 (@C2_record_click true 1000 [100; 600; 900]%Z 1500
                  (mkEvent 3 4 0) ltac:(lia))).
Defined.

(** C3.  After any [getCount()] read every remaining timestamp is strictly
    younger than the window; the read returns the length of what remains;
    it changes nothing but the log, which becomes the old log without the
    entries having [now - timestamp >= window], the others kept in their
    order and with their multiplicity; and reading again at the same
    instant changes nothing more.  No click is involved. *)
Theorem C3_count_evicts (s : ClickCounter.t) (now : Z) :
  let s' := exec (ClickCounter.getCount now) s in
  Forall (fun time => (now - time < ClickCounter.timeWindow s')%Z)
         (ClickCounter.clicks s')
  /\ result (ClickCounter.getCount now) s = List.length (ClickCounter.clicks s')
  /\ calls (ClickCounter.getCount now) s = []
  /\ ClickCounter.timeWindow s' = ClickCounter.timeWindow s
  /\ ClickCounter.callback s' = ClickCounter.callback s
  /\ (forall time,
        In time (ClickCounter.clicks s') <->
        In time (ClickCounter.clicks s)
        /\ (now - time < ClickCounter.timeWindow s)%Z)
  /\ ClickCounter.getCount now s' =
     (List.length (ClickCounter.clicks s'), s', [])
  /\ ClickCounter.clicks s' =
     filter
       (fun time =>
          negb (ClickCounter.expired now (ClickCounter.timeWindow s) time))
       (ClickCounter.clicks s)
  /\ s' =
     ClickCounter.mk (ClickCounter.timeWindow s) (ClickCounter.callback s)
       (filter
          (fun time =>
             negb (ClickCounter.expired now (ClickCounter.timeWindow s) time))
          (ClickCounter.clicks s)).
Proof.
  intro s'. unfold s', exec, result, calls. rewrite run_getCount. simpl.
  split; [|split; [|split; [|split; [|split; [|split; [|split; [|split]]]]]]];
    try reflexivity.
  - apply Forall_forall. intros time Hin.
    apply filter_in_window_In in Hin. tauto.
  - intro time. apply filter_in_window_In.
  - rewrite run_getCount. simpl.
    rewrite filter_in_window_idem. reflexivity.
  - apply filter_in_window_ext.
  - unfold ClickCounter.set_clicks. rewrite filter_in_window_ext.
    reflexivity.
Qed.

(** C10.  A counter constructed with [timeWindow] absent or equal to 0 uses
    the default window of 2000 in both [handleClick] and [getCount()]: an
    explicit 0 is replaced by the default. *)
Theorem C10_zero_window_defaults
  (o : option Z) (cb : bool) (log : list Z) (now : Z) (ev : MouseEvent)
  (Ho : o = None \/ o = Some 0%Z) :
  let c := ClickCounter.new (ClickCounter.mkOptions o cb) in
  let s := ClickCounter.set_clicks log c in
  ClickCounter.timeWindow c = 2000%Z
  /\ ClickCounter.clicks (exec (ClickCounter.handleClick now ev) s) =
     filter (fun time => (now - time <? 2000)%Z) log ++ [now]
  /\ ClickCounter.clicks (exec (ClickCounter.getCount now) s) =
     filter (fun time => (now - time <? 2000)%Z) log
  /\ result (ClickCounter.getCount now) s =
     List.length (filter (fun time => (now - time <? 2000)%Z) log).
Proof.
  intros c s.
  assert (Hwin : ClickCounter.timeWindow s = 2000%Z).
  { destruct Ho; subst o; reflexivity. }
  repeat split.
  - exact Hwin.
  - rewrite exec_handleClick, Hwin. reflexivity.
  - unfold exec. rewrite run_getCount, Hwin. reflexivity.
  - unfold result. rewrite run_getCount, Hwin. reflexivity.
Qed.

Lemma C10_zero_window_defaults_witness :
  (Some 0%Z = None \/ Some 0%Z = Some 0%Z)
  /\ result (ClickCounter.getCount 1500)
            (ClickCounter.set_clicks [0; 100]%Z
               (ClickCounter.new (ClickCounter.mkOptions (Some 0%Z) false))) =
     2%nat.
Proof.
  split; [right; reflexivity|].
  exact (proj2 (proj2 (proj2
    (@C10_zero_window_defaults (Some 0%Z) false [0; 100]%Z 1500
       (mkEvent 0 0 0) (or_intror eq_refl))))).
Defined.

(** ** Preservation of a state predicate by a computation *)

Section Preservation.
Variables St Call : Type.
Variable P : St -> Prop.

Lemma preserves_ret {A} (a : A) : preserves P (ret (St:=St) (Call:=Call) a).
Proof. intros s H. exact H. Qed.

Lemma preserves_get : preserves P (get (St:=St) (Call:=Call)).
Proof. intros s H. exact H. Qed.

Lemma preserves_call (c : Call) : preserves P (call (St:=St) c).
Proof. intros s H. exact H. Qed.

Lemma preserves_modify f :
  (forall s, P s -> P (f s)) -> preserves P (modify (Call:=Call) f).
Proof. intros Hf s H. apply Hf, H. Qed.

Lemma preserves_bind {A B} (m : Eff St Call A) (k : A -> Eff St Call B) :
  preserves P m -> (forall a, preserves P (k a)) -> preserves P (bind m k).
Proof.
  intros Hm Hk s H. specialize (Hm s H).
  unfold exec, bind in *. destruct (m s) as [[a s1] c1]. simpl in Hm.
  specialize (Hk a s1 Hm). unfold exec in Hk.
  destruct (k a s1) as [[b s2] c2]. exact Hk.
Qed.

Lemma preserves_when b (m : Eff St Call unit) :
  preserves P m -> preserves P (when b m).
Proof. intro Hm. destruct b; [exact Hm | apply preserves_ret]. Qed.
End Preservation.

Lemma calls_seq {St Call A B} (m : Eff St Call A) (k : Eff St Call B) s :
  calls (m ;; k) s = calls m s ++ calls k (exec m s).
Proof.
  unfold calls, exec, bind. destruct (m s) as [[a s1] c1].
  simpl. destruct (k s1) as [[b s2] c2]. reflexivity.
Qed.

Lemma run_eq {St Call A} (m : Eff St Call A) s :
  m s = (result m s, exec m s, calls m s).
Proof. unfold result, exec, calls. destruct (m s) as [[a s1] c1]. reflexivity. Qed.

(** ** DragAndDrop *)

Lemma preserves_addEventListener tg ty h :
  own_listener (DragAndDrop.mkListener tg ty h) ->
  preserves own_listeners (DragAndDrop.addEventListener tg ty h).
Proof.
  intro Hown. apply preserves_modify. intros s H.
  destruct (existsb _ _); [exact H|].
  unfold own_listeners in *. simpl.
  apply Forall_app. split; [exact H|]. constructor; [exact Hown|constructor].
Qed.

Lemma preserves_removeEventListener tg ty h :
  preserves own_listeners (DragAndDrop.removeEventListener tg ty h).
Proof.
  apply preserves_modify. intros s H. unfold own_listeners in *. simpl.
  rewrite Forall_forall in *. intros l Hl.
  apply filter_In in Hl. apply H, Hl.
Qed.

Ltac preserve_listeners :=
  repeat first
    [ apply preserves_ret | apply preserves_get | apply preserves_call
    | apply preserves_when
    | apply preserves_removeEventListener
    | apply preserves_addEventListener; unfold own_listener; tauto
    | apply preserves_modify; let s := fresh in let H := fresh in
        intros s H; exact H
    | apply preserves_bind; [|intro] ].

Lemma preserves_handleMouseDown ev :
  preserves own_listeners (DragAndDrop.handleMouseDown ev).
Proof. unfold DragAndDrop.handleMouseDown. preserve_listeners. Qed.

Lemma preserves_handleMouseMove ev :
  preserves own_listeners (DragAndDrop.handleMouseMove ev).
Proof.
  unfold DragAndDrop.handleMouseMove.
  apply preserves_bind; [apply preserves_get|]. intro s.
  destruct (negb _); preserve_listeners.
Qed.

Lemma preserves_handleMouseUp ev :
  preserves own_listeners (DragAndDrop.handleMouseUp ev).
Proof.
  unfold DragAndDrop.handleMouseUp.
  apply preserves_bind; [apply preserves_get|]. intro s.
  destruct (negb _); preserve_listeners.
Qed.

Lemma preserves_run_handlers hs ev :
  preserves own_listeners (DragAndDrop.run_handlers hs ev).
Proof.
  induction hs as [|h hs IH]; simpl; [apply preserves_ret|].
  apply preserves_bind; [|intros _; exact IH].
  destruct h; simpl;
    [ apply preserves_handleMouseDown | apply preserves_handleMouseMove
    | apply preserves_handleMouseUp ].
Qed.

Lemma preserves_step i : preserves own_listeners (DragAndDrop.step i).
Proof.
  destruct i; simpl.
  - unfold DragAndDrop.dispatch.
    apply preserves_bind; [apply preserves_get|]. intro s.
    apply preserves_run_handlers.
  - unfold DragAndDrop.start. preserve_listeners.
  - unfold DragAndDrop.stop. preserve_listeners.
Qed.

Lemma preserves_run inputs : preserves own_listeners (DragAndDrop.run inputs).
Proof.
  induction inputs as [|i inputs IH]; simpl; [apply preserves_ret|].
  apply preserves_bind; [apply preserves_step|intros _; exact IH].
Qed.

Lemma own_listeners_new cbs : own_listeners (DragAndDrop.new cbs).
Proof.
  unfold own_listeners. simpl. constructor; [|constructor].
  unfold own_listener. tauto.
Qed.

Lemma stop_clears_own_listeners s :
  own_listeners s ->
  DragAndDrop.stop s =
  (tt, DragAndDrop.set_listeners [] s, []).
Proof.
  intro H. unfold DragAndDrop.stop, DragAndDrop.removeEventListener,
    bind, modify. simpl. do 2 f_equal.
  unfold DragAndDrop.set_listeners. simpl. f_equal.
  unfold own_listeners in H.
  induction H as [|l ls Hl _ IH]; [reflexivity|].
  destruct Hl as [E|[E|E]]; subst l; simpl; exact IH.
Qed.

Lemma deliveries_without_listeners evs s :
  DragAndDrop.listeners s = [] ->
  DragAndDrop.run (DragAndDrop.deliveries evs) s = (tt, s, []).
Proof.
  intro H. induction evs as [|[[inside ty] ev] evs IH]; [reflexivity|].
  simpl. unfold bind at 1.
  assert (E : DragAndDrop.dispatch inside ty ev s = (tt, s, [])).
  { unfold DragAndDrop.dispatch, DragAndDrop.listening, bind, get.
    rewrite H. destruct inside; reflexivity. }
  rewrite E, IH. reflexivity.
Qed.

Lemma idle_handleMouseMove ev s :
  DragAndDrop.isDragging s = false ->
  DragAndDrop.handleMouseMove ev s = (tt, s, []).
Proof.
  intro H. unfold DragAndDrop.handleMouseMove, bind, get. rewrite H.
  reflexivity.
Qed.

Lemma idle_handleMouseUp ev s :
  DragAndDrop.isDragging s = false ->
  DragAndDrop.handleMouseUp ev s = (tt, s, []).
Proof.
  intro H. unfold DragAndDrop.handleMouseUp, bind, get. rewrite H.
  reflexivity.
Qed.

Lemma press_move_release_run b2 b3 btn1 btn2 release :
  DragAndDrop.run
    [DragAndDrop.Deliver true DragAndDrop.mousedown (mkEvent 5 5 btn1);
     DragAndDrop.Deliver b2 DragAndDrop.mousemove (mkEvent 15 5 btn2);
     DragAndDrop.Deliver b3 DragAndDrop.mouseup release]
    (DragAndDrop.new DragAndDrop.all_callbacks) =
  (tt,
   DragAndDrop.mk DragAndDrop.all_callbacks false (mkPos 5 5) (mkPos 15 5)
     [DragAndDrop.mkListener DragAndDrop.Element DragAndDrop.mousedown
        DragAndDrop.HandleMouseDown],
   [DragAndDrop.OnStart (mkEvent 5 5 btn1) (mkPos 5 5);
    DragAndDrop.OnDrag (mkEvent 15 5 btn2) (mkPos 15 5) (mkPos 10 0);
    DragAndDrop.OnEnd release (mkPos 15 5) (mkPos 10 0)]).
Proof.
  destruct b2, b3; cbv -[IZR Rminus];
    replace (15 - 5)%R with 10%R by lra;
    replace (5 - 5)%R with 0%R by lra; reflexivity.
Qed.

(** C5.  Press at (5,5), move to (15,5), release: [onStart] is called once
    with (5,5), [onDrag] once with delta (10,0), [onEnd] once with delta
    (10,0), and the tracker is idle again; a move delivered after the
    release calls nothing and changes nothing.  In any idle tracker the
    move and release handlers call nothing and leave the state as it is. *)
Theorem C5_press_move_release
  (b2 b3 b4 : bool) (btn1 btn2 : Z) (release later ev : MouseEvent)
  (s : DragAndDrop.t) (Hidle : DragAndDrop.isDragging s = false) :
  let press := mkEvent 5 5 btn1 in
  let move := mkEvent 15 5 btn2 in
  let gesture :=
    DragAndDrop.run
      [DragAndDrop.Deliver true DragAndDrop.mousedown press;
       DragAndDrop.Deliver b2 DragAndDrop.mousemove move;
       DragAndDrop.Deliver b3 DragAndDrop.mouseup release] in
  let tracker := exec gesture (DragAndDrop.new DragAndDrop.all_callbacks) in
  calls gesture (DragAndDrop.new DragAndDrop.all_callbacks) =
    [DragAndDrop.OnStart press (mkPos 5 5);
     DragAndDrop.OnDrag move (mkPos 15 5) (mkPos 10 0);
     DragAndDrop.OnEnd release (mkPos 15 5) (mkPos 10 0)]
  /\ DragAndDrop.isDragging tracker = false
  /\ DragAndDrop.dispatch b4 DragAndDrop.mousemove later tracker =
     (tt, tracker, [])
  /\ DragAndDrop.handleMouseMove ev s = (tt, s, [])
  /\ DragAndDrop.handleMouseUp ev s = (tt, s, []).
Proof.
  intros press move gesture tracker.
  unfold tracker, gesture, calls, exec, press, move.
  rewrite press_move_release_run. simpl fst. simpl snd.
  split; [reflexivity|]. split; [reflexivity|].
  split; [destruct b4; reflexivity|].
  split; [apply idle_handleMouseMove | apply idle_handleMouseUp]; exact Hidle.
Qed.

Lemma C5_press_move_release_witness :
  DragAndDrop.isDragging (DragAndDrop.new DragAndDrop.all_callbacks) = false
  /\ DragAndDrop.handleMouseUp (mkEvent 7 7 0)
       (DragAndDrop.new DragAndDrop.all_callbacks) =
     (tt, DragAndDrop.new DragAndDrop.all_callbacks, []).
Proof.
  split; [reflexivity|].
  exact (proj2 (proj2 (proj2 (proj2
    (@C5_press_move_release true true true 0 0 (mkEvent 15 5 0)
       (mkEvent 20 20 0) (mkEvent 7 7 0)
       (DragAndDrop.new DragAndDrop.all_callbacks) eq_refl))))).
Defined.

(** C4, as amended.  At any point of any run, [stop()] removes every
    listener of the tracker and calls no callback, [onEnd] included, so
    that no event delivered afterwards reaches it; it leaves [isDragging],
    [startPos] and [currentPos] as they were. *)
Theorem C4_stop_detaches
  (cbs : DragAndDrop.Callbacks) (inputs : list DragAndDrop.Input)
  (later : list (bool * DragAndDrop.EventType * MouseEvent)) :
  let s := exec (DragAndDrop.run inputs) (DragAndDrop.new cbs) in
  let s' := exec DragAndDrop.stop s in
  DragAndDrop.listeners s' = []
  /\ calls DragAndDrop.stop s = []
  /\ DragAndDrop.isDragging s' = DragAndDrop.isDragging s
  /\ DragAndDrop.startPos s' = DragAndDrop.startPos s
  /\ DragAndDrop.currentPos s' = DragAndDrop.currentPos s
  /\ DragAndDrop.callbacks s' = DragAndDrop.callbacks s
  /\ DragAndDrop.run (DragAndDrop.deliveries later) s' = (tt, s', []).
Proof.
  intros s s'.
  assert (Hown : own_listeners s).
  { apply preserves_run, own_listeners_new. }
  unfold s', exec, calls. rewrite (stop_clears_own_listeners Hown). simpl.
  repeat split. apply deliveries_without_listeners. reflexivity.
Qed.

(** After a press, [stop()] leaves the tracker with [isDragging] set: the
    session is not discarded. *)
Lemma C4_stop_mid_drag_counterexample :
  DragAndDrop.isDragging
    (exec (DragAndDrop.run
             [DragAndDrop.Deliver true DragAndDrop.mousedown (mkEvent 5 5 0);
              DragAndDrop.Stop])
          (DragAndDrop.new DragAndDrop.all_callbacks))
  <> false.
Proof. cbv -[IZR]. discriminate. Qed.

(** ** MouseButtons *)

Ltac button_cases ev :=
  destruct (button ev) as [|[[?|?|]|[?|?|]|]|?].

Ltac name_cases name :=
  destruct (String.eqb_spec name "left") as [->|?];
    [reflexivity|];
  destruct (String.eqb_spec name "right") as [->|?];
    [reflexivity|];
  destruct (String.eqb_spec name "middle") as [->|?];
    reflexivity.

(** C8.  A press or release with button index 0, 1 or 2 sets or clears the
    flag named left, middle or right respectively and leaves the other two
    as they were; with any other index the state is unchanged.  Pressing
    and then releasing index 2 makes [isPressed('right')] true and then
    false, while [isPressed('middle')] stays false. *)
Theorem C8_button_flags
  (s : MouseButtons.t) (ev other : MouseEvent) (name : string)
  (Hother : button other <> 0%Z /\ button other <> 1%Z /\ button other <> 2%Z) :
  let down := MouseButtons.handleMouseDown ev s in
  let up := MouseButtons.handleMouseUp ev s in
  (MouseButtons.left down = (button ev =? 0)%Z || MouseButtons.left s
   /\ MouseButtons.middle down = (button ev =? 1)%Z || MouseButtons.middle s
   /\ MouseButtons.right down = (button ev =? 2)%Z || MouseButtons.right s)
  /\ (MouseButtons.left up = negb (button ev =? 0)%Z && MouseButtons.left s
      /\ MouseButtons.middle up = negb (button ev =? 1)%Z && MouseButtons.middle s
      /\ MouseButtons.right up = negb (button ev =? 2)%Z && MouseButtons.right s)
  /\ MouseButtons.isPressed name down =
     match MouseButtons.button_name (button ev) with
     | Some n => if String.eqb name n then true
                 else MouseButtons.isPressed name s
     | None => MouseButtons.isPressed name s
     end
  /\ MouseButtons.isPressed name up =
     match MouseButtons.button_name (button ev) with
     | Some n => if String.eqb name n then false
                 else MouseButtons.isPressed name s
     | None => MouseButtons.isPressed name s
     end
  /\ (MouseButtons.handleMouseDown other s = s
      /\ MouseButtons.handleMouseUp other s = s)
  /\ (let pressed :=
        MouseButtons.handleMouseDown (mkEvent 0 0 2) MouseButtons.new in
      let released := MouseButtons.handleMouseUp (mkEvent 0 0 2) pressed in
      MouseButtons.isPressed "right" MouseButtons.new = false
      /\ MouseButtons.isPressed "right" pressed = true
      /\ MouseButtons.isPressed "right" released = false
      /\ MouseButtons.isPressed "middle" MouseButtons.new = false
      /\ MouseButtons.isPressed "middle" pressed = false
      /\ MouseButtons.isPressed "middle" released = false).
Proof.
  intros down up.
  split; [|split; [|split; [|split; [|split]]]].
  - unfold down, MouseButtons.handleMouseDown.
    destruct s as [l r m]. button_cases ev; simpl;
      repeat split; try reflexivity; destruct l, r, m; reflexivity.
  - unfold up, MouseButtons.handleMouseUp.
    destruct s as [l r m]. button_cases ev; simpl;
      repeat split; try reflexivity; destruct l, r, m; reflexivity.
  - unfold down, MouseButtons.handleMouseDown, MouseButtons.isPressed,
      MouseButtons.button_name.
    destruct s as [l r m]. button_cases ev; name_cases name.
  - unfold up, MouseButtons.handleMouseUp, MouseButtons.isPressed,
      MouseButtons.button_name.
    destruct s as [l r m]. button_cases ev; name_cases name.
  - unfold MouseButtons.handleMouseDown, MouseButtons.handleMouseUp.
    destruct Hother as (H0 & H1 & H2). revert H0 H1 H2.
    button_cases other; intros H0 H1 H2; try (split; reflexivity);
      congruence.
  - repeat split.
Qed.

Lemma C8_button_flags_witness :
  ((3 <> 0)%Z /\ (3 <> 1)%Z /\ (3 <> 2)%Z)
  /\ MouseButtons.handleMouseDown (mkEvent 0 0 3)
       (MouseButtons.mk true false true) =
     MouseButtons.mk true false true.
Proof.
  split; [lia|].
  assert (Hother : button (mkEvent 0 0 3) <> 0%Z
                   /\ button (mkEvent 0 0 3) <> 1%Z
                   /\ button (mkEvent 0 0 3) <> 2%Z) by (simpl; lia).
  apply (@C8_button_flags (MouseButtons.mk true false true) (mkEvent 0 0 2)
           (mkEvent 0 0 3) "right"%string Hother).
Defined.

(** ** MovementTracker *)

Lemma handleMove_same_time ev s :
  MovementTracker.handleMove (MovementTracker.lastTime s) ev s =
  (tt,
   MovementTracker.mk (MovementTracker.callback s)
     (mkPos (clientX ev) (clientY ev)) (MovementTracker.lastTime s)
     (MovementTracker.velocity s),
   []).
Proof.
  unfold MovementTracker.handleMove, bind, get, modify.
  rewrite Z.sub_diag. reflexivity.
Qed.

Lemma lastTime_handleMove now ev s :
  MovementTracker.lastTime (exec (MovementTracker.handleMove now ev) s) = now.
Proof.
  unfold exec, MovementTracker.handleMove, bind, get, modify.
  destruct (0 <? now - MovementTracker.lastTime s)%Z; simpl;
    [destruct (MovementTracker.callback s)|]; reflexivity.
Qed.

(** C6.  A move event whose clock reading equals the stored last event
    time calls no observer and leaves the velocity as it was, and still
    stores the event's coordinates and time.  In particular, of two
    consecutive move events with the same timestamp the second adds no
    observer call and no velocity, and the stored position is the second
    event's. *)
Theorem C6_zero_delta_time
  (s : MovementTracker.t) (currentTime : Z) (ev first second : MouseEvent)
  (now : Z)
  (Hzero : (currentTime - MovementTracker.lastTime s = 0)%Z) :
  MovementTracker.handleMove currentTime ev s =
    (tt,
     MovementTracker.mk (MovementTracker.callback s)
       (mkPos (clientX ev) (clientY ev)) currentTime
       (MovementTracker.velocity s),
     [])
  /\ (let s1 := exec (MovementTracker.handleMove now first) s in
      let both := (MovementTracker.handleMove now first ;;
                   MovementTracker.handleMove now second) in
      calls both s = calls (MovementTracker.handleMove now first) s
      /\ MovementTracker.velocity (exec both s) = MovementTracker.velocity s1
      /\ MovementTracker.lastPos (exec both s) =
         mkPos (clientX second) (clientY second)
      /\ MovementTracker.lastTime (exec both s) = now).
Proof.
  split.
  - assert (E : currentTime = MovementTracker.lastTime s) by lia.
    rewrite E. apply handleMove_same_time.
  - intros s1 both. unfold both. rewrite calls_seq, exec_seq. fold s1.
    pose proof (lastTime_handleMove now first s) as Ht. fold s1 in Ht.
    pose proof (handleMove_same_time second s1) as Hs. rewrite Ht in Hs.
    unfold calls at 2. unfold exec at 1 2 3. rewrite Hs. simpl.
    rewrite app_nil_r. repeat split.
Qed.

Lemma C6_zero_delta_time_witness :
  (500 - MovementTracker.lastTime
           (MovementTracker.mk true (mkPos 1 2) 500 (mkPos 3 4)) = 0)%Z
  /\ MovementTracker.handleMove 500 (mkEvent 7 8 0)
       (MovementTracker.mk true (mkPos 1 2) 500 (mkPos 3 4)) =
     (tt, MovementTracker.mk true (mkPos 7 8) 500 (mkPos 3 4), []).
Proof.
  split; [reflexivity|].
  exact (proj1 (@C6_zero_delta_time
    (MovementTracker.mk true (mkPos 1 2) 500 (mkPos 3 4)) 500
    (mkEvent 7 8 0) (mkEvent 0 0 0) (mkEvent 0 0 0) 0 eq_refl)).
Defined.

Lemma atan2_right y x : (0 < x)%R -> atan2 y x = atan (y / x).
Proof.
  intro H. unfold atan2. destruct (Rlt_dec 0 x); [reflexivity|lra].
Qed.

Lemma atan2_upper_left y x :
  (x < 0)%R -> (0 <= y)%R -> atan2 y x = (atan (y / x) + PI)%R.
Proof.
  intros Hx Hy. unfold atan2.
  destruct (Rlt_dec 0 x); [lra|].
  destruct (Rlt_dec x 0); [|lra].
  destruct (Rle_dec 0 y); [reflexivity|lra].
Qed.

Lemma atan2_up y : (0 < y)%R -> atan2 y 0 = (PI / 2)%R.
Proof.
  intro H. unfold atan2.
  destruct (Rlt_dec 0 0); [lra|].
  destruct (Rlt_dec 0 y); [reflexivity|lra].
Qed.

Lemma atan_nonpos x : (x <= 0)%R -> (atan x <= 0)%R.
Proof.
  intros [H|H].
  - left. rewrite <- atan_0. apply atan_increasing. exact H.
  - subst x. rewrite atan_0. lra.
Qed.

Lemma atan_pos x : (0 < x)%R -> (0 < atan x)%R.
Proof.
  intro H. rewrite <- atan_0. apply atan_increasing. exact H.
Qed.

(** The host function returns an angle in the half-open turn
    [(-PI, PI]]. *)
Lemma atan2_range y x : (- PI < atan2 y x <= PI)%R.
Proof.
  pose proof PI_RGT_0 as Hpi.
  pose proof (atan_bound (y / x)) as Hb.
  unfold atan2.
  destruct (Rlt_dec 0 x) as [Hx|Hx]; [lra|].
  destruct (Rlt_dec x 0) as [Hx'|Hx'].
  - assert (Hinv : (/ x < 0)%R) by (apply Rinv_lt_0_compat; exact Hx').
    destruct (Rle_dec 0 y) as [Hy|Hy].
    + assert (Hq : (y / x <= 0)%R).
      { unfold Rdiv. nra. }
      pose proof (atan_nonpos Hq). lra.
    + assert (Hq : (0 < y / x)%R).
      { unfold Rdiv. nra. }
      pose proof (atan_pos Hq). lra.
  - destruct (Rlt_dec 0 y); [lra|].
    destruct (Rlt_dec y 0); lra.
Qed.

Lemma degrees_range a :
  (- PI < a <= PI)%R -> (-180 < a * (180 / PI) <= 180)%R.
Proof.
  intros [Hlo Hhi]. pose proof PI_RGT_0 as Hpi.
  assert (Hk : (0 < 180 / PI)%R).
  { apply Rdiv_lt_0_compat; lra. }
  assert (E : (PI * (180 / PI) = 180)%R) by (field; lra).
  set (k := (180 / PI)%R) in *.
  split; nra.
Qed.

Lemma angle_east : (atan2 (0 - 0) (10 - 0) * (180 / PI) = 0)%R.
Proof.
  rewrite atan2_right by lra.
  replace ((0 - 0) / (10 - 0))%R with 0%R by (field; lra).
  rewrite atan_0. apply Rmult_0_l.
Qed.

Lemma angle_north_west : (atan2 (10 - 0) (0 - 10) * (180 / PI) = 135)%R.
Proof.
  rewrite atan2_upper_left by lra.
  replace ((10 - 0) / (0 - 10))%R with (Ropp 1) by (field; lra).
  rewrite atan_opp, atan_1. field. apply PI_neq0.
Qed.

Lemma angle_north : (atan2 (10 - 0) (0 - 0) * (180 / PI) = 90)%R.
Proof.
  replace (0 - 0)%R with 0%R by lra.
  rewrite atan2_up by lra. field. apply PI_neq0.
Qed.

Lemma speed_tenth : sqrt (((10 - 0) / 100) ^ 2 + ((0 - 0) / 100) ^ 2) = (0.1)%R.
Proof.
  replace (((10 - 0) / 100) ^ 2 + ((0 - 0) / 100) ^ 2)%R
    with ((1 / 10) ^ 2)%R by field.
  rewrite sqrt_pow2 by lra. lra.
Qed.

Lemma handleMove_later now ev s :
  (0 < now - MovementTracker.lastTime s)%Z ->
  let dt := IZR (now - MovementTracker.lastTime s) in
  let dx := (clientX ev - pos_x (MovementTracker.lastPos s))%R in
  let dy := (clientY ev - pos_y (MovementTracker.lastPos s))%R in
  let v := mkPos (dx / dt) (dy / dt) in
  MovementTracker.handleMove now ev s =
  (tt,
   MovementTracker.mk (MovementTracker.callback s)
     (mkPos (clientX ev) (clientY ev)) now v,
   if MovementTracker.callback s
   then [MovementTracker.mkSample v
           (sqrt (pos_x v ^ 2 + pos_y v ^ 2))
           (atan2 dy dx * (180 / PI))
           (mkPos (clientX ev) (clientY ev))]
   else []).
Proof.
  intros Hdt dt dx dy v. subst dt dx dy v.
  destruct s as [cb lp lt vel]. apply Z.ltb_lt in Hdt.
  unfold MovementTracker.handleMove, bind, get, modify, when, call, ret.
  cbn [MovementTracker.lastTime MovementTracker.callback
       MovementTracker.lastPos] in *.
  rewrite Hdt. destruct cb; reflexivity.
Qed.

Ltac tracker_fields :=
  cbn [MovementTracker.new MovementTracker.lastTime MovementTracker.lastPos
       MovementTracker.callback MovementTracker.velocity
       pos_x pos_y clientX clientY fst snd].

Lemma first_move_east t0 btn :
  MovementTracker.handleMove (t0 + 100) (mkEvent 10 0 btn)
    (MovementTracker.new t0 true) =
  (tt,
   MovementTracker.mk true (mkPos 10 0) (t0 + 100) (mkPos 0.1 0),
   [MovementTracker.mkSample (mkPos 0.1 0) 0.1 0 (mkPos 10 0)]).
Proof.
  rewrite handleMove_later by (simpl; lia). tracker_fields.
  replace (t0 + 100 - t0)%Z with 100%Z by lia.
  rewrite speed_tenth, angle_east.
  replace ((10 - 0) / 100)%R with 0.1%R by lra.
  replace ((0 - 0) / 100)%R with 0%R by lra.
  reflexivity.
Qed.

Lemma second_move_north_west t0 btn :
  map MovementTracker.sample_angle
    (calls (MovementTracker.handleMove (t0 + 200) (mkEvent 0 10 btn))
       (MovementTracker.mk true (mkPos 10 0) (t0 + 100) (mkPos 0.1 0))) =
  [135%R].
Proof.
  unfold calls. rewrite handleMove_later by (simpl; lia). tracker_fields.
  cbn [map MovementTracker.sample_angle].
  rewrite angle_north_west. reflexivity.
Qed.

Lemma two_moves_angles t0 btn1 btn2 :
  map MovementTracker.sample_angle
    (calls (MovementTracker.handleMove (t0 + 100) (mkEvent 10 0 btn1) ;;
            MovementTracker.handleMove (t0 + 200) (mkEvent 0 10 btn2))
       (MovementTracker.new t0 true)) =
  [0%R; 135%R].
Proof.
  rewrite calls_seq, map_app. unfold exec, calls at 1.
  rewrite first_move_east. cbn [fst snd].
  rewrite second_move_north_west. reflexivity.
Qed.

Lemma first_move_north t0 btn :
  map MovementTracker.sample_angle
    (calls (MovementTracker.handleMove (t0 + 100) (mkEvent 0 10 btn))
       (MovementTracker.new t0 true)) =
  [90%R].
Proof.
  unfold calls. rewrite handleMove_later by (simpl; lia). tracker_fields.
  cbn [map MovementTracker.sample_angle].
  rewrite angle_north. reflexivity.
Qed.

(** C7, as amended.  For every move event with strictly positive
    [deltaTime], the tracker stores and reports to its observer the
    velocity [deltaPosition / deltaTime] component-wise, the speed as the
    Euclidean norm of that velocity, and the angle [atan2(deltaY, deltaX)]
    in degrees, which lies in (-180, 180].  A move from (0,0) to (10,0)
    over 100 time units yields velocity (0.1, 0), speed 0.1 and angle 0; a
    subsequent move to (0,10) over 100 units yields angle 135, the delta
    being taken from the previous position (10,0); angle 90 is what a move
    from (0,0) to (0,10) yields. *)
Theorem C7_velocity_speed_angle
  (s : MovementTracker.t) (now : Z) (ev : MouseEvent) (t0 btn1 btn2 : Z)
  (Hdt : (0 < now - MovementTracker.lastTime s)%Z)
  (Hcb : MovementTracker.callback s = true) :
  let dt := IZR (now - MovementTracker.lastTime s) in
  let dx := (clientX ev - pos_x (MovementTracker.lastPos s))%R in
  let dy := (clientY ev - pos_y (MovementTracker.lastPos s))%R in
  let v := mkPos (dx / dt) (dy / dt) in
  calls (MovementTracker.handleMove now ev) s =
    [MovementTracker.mkSample v
       (sqrt (pos_x v ^ 2 + pos_y v ^ 2))
       (atan2 dy dx * (180 / PI))
       (mkPos (clientX ev) (clientY ev))]
  /\ MovementTracker.getVelocity
       (exec (MovementTracker.handleMove now ev) s) = v
  /\ (-180 < atan2 dy dx * (180 / PI) <= 180)%R
  /\ calls (MovementTracker.handleMove (t0 + 100) (mkEvent 10 0 btn1))
       (MovementTracker.new t0 true) =
     [MovementTracker.mkSample (mkPos 0.1 0) 0.1 0 (mkPos 10 0)]
  /\ map MovementTracker.sample_angle
       (calls (MovementTracker.handleMove (t0 + 100) (mkEvent 10 0 btn1) ;;
               MovementTracker.handleMove (t0 + 200) (mkEvent 0 10 btn2))
          (MovementTracker.new t0 true)) =
     [0%R; 135%R]
  /\ map MovementTracker.sample_angle
       (calls (MovementTracker.handleMove (t0 + 100) (mkEvent 0 10 btn2))
          (MovementTracker.new t0 true)) =
     [90%R].
Proof.
  intros dt dx dy v.
  split; [|split; [|split; [|split; [|split]]]].
  - unfold calls. rewrite handleMove_later by exact Hdt.
    rewrite Hcb. reflexivity.
  - unfold exec. rewrite handleMove_later by exact Hdt. reflexivity.
  - apply degrees_range, atan2_range.
  - unfold calls. rewrite first_move_east. reflexivity.
  - apply two_moves_angles.
  - apply first_move_north.
Qed.

Lemma C7_velocity_speed_angle_witness :
  ((0 < 150 - MovementTracker.lastTime (MovementTracker.new 50 true))%Z
   /\ MovementTracker.callback (MovementTracker.new 50 true) = true)
  /\ MovementTracker.getVelocity
       (exec (MovementTracker.handleMove 150 (mkEvent 10 0 0))
          (MovementTracker.new 50 true)) =
     mkPos ((10 - 0) / IZR (150 - 50)) ((0 - 0) / IZR (150 - 50)).
Proof.
  split; [split; [reflexivity|reflexivity]|].
  apply (@C7_velocity_speed_angle (MovementTracker.new 50 true) 150
           (mkEvent 10 0 0) 0 0 0 eq_refl eq_refl).
Defined.

(** The angle reported for the move from (10,0) to (0,10) is not 90. *)
Lemma C7_second_angle_counterexample :
  map MovementTracker.sample_angle
    (calls (MovementTracker.handleMove (0 + 100) (mkEvent 10 0 0) ;;
            MovementTracker.handleMove (0 + 200) (mkEvent 0 10 0))
       (MovementTracker.new 0 true))
  <> [0%R; 90%R].
Proof.
  rewrite two_moves_angles. intro H. injection H as H. lra.
Qed.

(** ** CustomCursor *)

(** C9.  With smoothing disabled, a move event sets both the target and the
    current position to the mouse position plus the configured offset and
    renders the cursor there at once, requesting no frame.  With smoothing
    enabled, one animation tick replaces each component of the current
    position by [current + (target - current) * 0.3], then renders the
    cursor at the new position and requests the next frame. *)
Theorem C9_cursor_follow
  (s1 s2 : CustomCursor.t) (ev : MouseEvent)
  (Hsnap : CustomCursor.smooth s1 = false)
  (Hsmooth : CustomCursor.smooth s2 = true) :
  let target :=
    mkPos (clientX ev + pos_x (CustomCursor.offset s1))
          (clientY ev + pos_y (CustomCursor.offset s1)) in
  let cur := CustomCursor.currentPos s2 in
  let tgt := CustomCursor.targetPos s2 in
  let next :=
    mkPos (pos_x cur + (pos_x tgt - pos_x cur) * 0.3)
          (pos_y cur + (pos_y tgt - pos_y cur) * 0.3) in
  CustomCursor.handleMove ev s1 =
    (tt,
     CustomCursor.set_currentPos target (CustomCursor.set_targetPos target s1),
     [CustomCursor.SetTransform (pos_x target) (pos_y target)])
  /\ CustomCursor.update s2 =
     (tt,
      CustomCursor.set_animationFrame (Some (CustomCursor.nextHandle s2))
        (CustomCursor.set_nextHandle (S (CustomCursor.nextHandle s2))
           (CustomCursor.set_currentPos next s2)),
      [CustomCursor.SetTransform (pos_x next) (pos_y next);
       CustomCursor.RequestAnimationFrame (CustomCursor.nextHandle s2)]).
Proof.
  intros target cur tgt next.
  split.
  - destruct s1 as [sm off c t a l n]. simpl in Hsnap. subst sm.
    reflexivity.
  - destruct s2 as [sm off c t a l n]. simpl in Hsmooth. subst sm.
    reflexivity.
Qed.

Lemma C9_cursor_follow_witness :
  (CustomCursor.smooth
     (CustomCursor.mk false (mkPos 2 3) (mkPos 10 20) (mkPos 110 220)
        None true 5) = false
   /\ CustomCursor.smooth
        (CustomCursor.mk true (mkPos 2 3) (mkPos 10 20) (mkPos 110 220)
           (Some 4%nat) true 5) = true)
  /\ CustomCursor.handleMove (mkEvent 40 30 0)
       (CustomCursor.mk false (mkPos 2 3) (mkPos 10 20) (mkPos 110 220)
          None true 5) =
     (tt,
      CustomCursor.mk false (mkPos 2 3)
        (mkPos (40 + 2) (30 + 3)) (mkPos (40 + 2) (30 + 3)) None true 5,
      [CustomCursor.SetTransform (40 + 2) (30 + 3)])
  /\ CustomCursor.update
       (CustomCursor.mk true (mkPos 2 3) (mkPos 10 20) (mkPos 110 220)
          (Some 4%nat) true 5) =
     (tt,
      CustomCursor.mk true (mkPos 2 3)
        (mkPos (10 + (110 - 10) * 0.3) (20 + (220 - 20) * 0.3))
        (mkPos 110 220) (Some 5%nat) true 6,
      [CustomCursor.SetTransform
         (10 + (110 - 10) * 0.3) (20 + (220 - 20) * 0.3);
       CustomCursor.RequestAnimationFrame 5]).
Proof.
  split; [split; reflexivity|].
  apply (@C9_cursor_follow
           (CustomCursor.mk false (mkPos 2 3) (mkPos 10 20) (mkPos 110 220)
              None true 5)
           (CustomCursor.mk true (mkPos 2 3) (mkPos 10 20) (mkPos 110 220)
              (Some 4%nat) true 5)
           (mkEvent 40 30 0) eq_refl eq_refl).
Defined.

(** * Further properties *)

(** ** ClickCounter: reset, reads and the click history *)

Lemma filter_in_window_later now1 now2 window l :
  (now1 <= now2)%Z ->
  filter (ClickCounter.in_window now2 window)
    (filter (ClickCounter.in_window now1 window) l) =
  filter (ClickCounter.in_window now2 window) l.
Proof.
  intro Hle. induction l as [|a l IH]; [reflexivity|]. simpl.
  destruct (ClickCounter.in_window now1 window a) eqn:E1; simpl.
  - rewrite IH. reflexivity.
  - rewrite IH.
    replace (ClickCounter.in_window now2 window a) with false; [reflexivity|].
    symmetry. unfold ClickCounter.in_window in *.
    apply Z.ltb_ge. apply Z.ltb_ge in E1. lia.
Qed.

Lemma filter_length_le {A} (p : A -> bool) l :
  (List.length (filter p l) <= List.length l)%nat.
Proof.
  induction l as [|a l IH]; simpl; [lia|].
  destruct (p a); simpl; lia.
Qed.

(** X1.  [reset()] empties the log without calling the observer and
    without touching the window; the next read returns 0 whatever the
    clock says, and the next click is reported with count 1. *)
Theorem X1_reset_clears
  (s : ClickCounter.t) (now now' : Z) (ev : MouseEvent) :
  let s0 := exec ClickCounter.reset s in
  ClickCounter.clicks s0 = []
  /\ calls ClickCounter.reset s = []
  /\ ClickCounter.timeWindow s0 = ClickCounter.timeWindow s
  /\ ClickCounter.callback s0 = ClickCounter.callback s
  /\ ClickCounter.getCount now s0 = (0%nat, s0, [])
  /\ ClickCounter.clicks (exec (ClickCounter.handleClick now' ev) s0) = [now']
  /\ calls (ClickCounter.handleClick now' ev) s0 =
     (if ClickCounter.callback s then [(1%nat, ev)] else []).
Proof.
  intro s0. unfold s0, exec, calls, ClickCounter.reset, modify. simpl.
  do 5 (split; [reflexivity|]).
  unfold ClickCounter.handleClick, bind, modify, get, when. simpl.
  destruct (ClickCounter.callback s); split; reflexivity.
Qed.

(** X2.  With a positive window, the count handed to the observer on a
    click is the length of the log after that click: it is what
    [getCount()] returns at the same instant, it is at least 1, and it
    exceeds the length of the previous log by at most 1. *)
Theorem X2_reported_count
  (s : ClickCounter.t) (now : Z) (ev : MouseEvent)
  (Hw : (0 < ClickCounter.timeWindow s)%Z)
  (Hcb : ClickCounter.callback s = true) :
  let s' := exec (ClickCounter.handleClick now ev) s in
  exists n,
    calls (ClickCounter.handleClick now ev) s = [(n, ev)]
    /\ n = result (ClickCounter.getCount now) s'
    /\ n = List.length (ClickCounter.clicks s')
    /\ (1 <= n <= List.length (ClickCounter.clicks s) + 1)%nat.
Proof.
  intro s'. unfold s'. rewrite calls_handleClick, Hcb, exec_handleClick.
  eexists. split; [reflexivity|].
  unfold result. rewrite run_getCount. simpl.
  rewrite filter_app, filter_in_window_idem. simpl.
  replace (ClickCounter.in_window now (ClickCounter.timeWindow s) now)
    with true.
  2:{ symmetry. unfold ClickCounter.in_window. apply Z.ltb_lt. lia. }
  split; [reflexivity|]. split; [reflexivity|].
  rewrite length_app. simpl.
  pose proof (filter_length_le
    (ClickCounter.in_window now (ClickCounter.timeWindow s))
    (ClickCounter.clicks s)).
  lia.
Qed.

Lemma X2_reported_count_witness :
  ((0 < ClickCounter.timeWindow (ClickCounter.mk 1000 true [100; 900]))%Z
   /\ ClickCounter.callback (ClickCounter.mk 1000 true [100; 900]%Z) = true)
  /\ exists n,
       calls (ClickCounter.handleClick 1200 (mkEvent 1 2 0))
         (ClickCounter.mk 1000 true [100; 900]%Z) = [(n, mkEvent 1 2 0)]
       /\ n = result (ClickCounter.getCount 1200)
                (exec (ClickCounter.handleClick 1200 (mkEvent 1 2 0))
                   (ClickCounter.mk 1000 true [100; 900]%Z))
       /\ n = List.length
                (ClickCounter.clicks
                   (exec (ClickCounter.handleClick 1200 (mkEvent 1 2 0))
                      (ClickCounter.mk 1000 true [100; 900]%Z)))
       /\ (1 <= n <= List.length
                       (ClickCounter.clicks
                          (ClickCounter.mk 1000 true [100; 900]%Z)) + 1)%nat.
Proof.
  split; [split; reflexivity|].
  apply (@X2_reported_count (ClickCounter.mk 1000 true [100; 900]%Z) 1200
           (mkEvent 1 2 0) eq_refl eq_refl).
Defined.

(** X3.  When the clock does not go backwards, an intermediate read does
    not change what a later read returns or leaves behind, and the later
    read never returns more than the earlier one. *)
Theorem X3_reads_compose
  (s : ClickCounter.t) (now1 now2 : Z) (Hle : (now1 <= now2)%Z) :
  ClickCounter.getCount now2 (exec (ClickCounter.getCount now1) s) =
  ClickCounter.getCount now2 s
  /\ (result (ClickCounter.getCount now2) s <=
      result (ClickCounter.getCount now1) s)%nat.
Proof.
  unfold exec, result. rewrite !run_getCount. simpl.
  rewrite (filter_in_window_later _ _ Hle).
  split; [reflexivity|].
  rewrite <- (filter_in_window_later (ClickCounter.timeWindow s)
                (ClickCounter.clicks s) Hle).
  apply filter_length_le.
Qed.

Lemma X3_reads_compose_witness :
  (300 <= 1050)%Z
  /\ ClickCounter.getCount 1050
       (exec (ClickCounter.getCount 300)
          (ClickCounter.mk 1000 false [0; 100; 200]%Z)) =
     ClickCounter.getCount 1050 (ClickCounter.mk 1000 false [0; 100; 200]%Z).
Proof.
  split; [lia|].
  apply (@X3_reads_compose (ClickCounter.mk 1000 false [0; 100; 200]%Z)
           300 1050 ltac:(lia)).
Defined.

Lemma last_in_list {A} (l : list A) d : l <> [] -> In (last l d) l.
Proof.
  induction l as [|a l IH]; [congruence|]. intros _.
  destruct l as [|b l]; [left; reflexivity|].
  right. apply IH. discriminate.
Qed.

Lemma timeWindow_handleClick now ev s :
  ClickCounter.timeWindow (exec (ClickCounter.handleClick now ev) s) =
  ClickCounter.timeWindow s.
Proof. rewrite exec_handleClick. reflexivity. Qed.

Lemma in_window_self now window :
  (0 < window)%Z -> ClickCounter.in_window now window now = true.
Proof. intro H. unfold ClickCounter.in_window. apply Z.ltb_lt. lia. Qed.

Lemma record_all_history ev times :
  forall s,
    times <> [] ->
    StronglySorted Z.le times ->
    (0 < ClickCounter.timeWindow s)%Z ->
    ClickCounter.clicks (exec (ClickCounter.record_all times ev) s) =
    filter (ClickCounter.in_window (last times 0%Z) (ClickCounter.timeWindow s))
      (ClickCounter.clicks s ++ times).
Proof.
  induction times as [|a rest IH]; intros s Hne Hs Hw; [congruence|].
  rewrite exec_record_all_cons.
  apply StronglySorted_inv in Hs. destruct Hs as [Hrest Ha].
  destruct rest as [|b rest'].
  - change (exec (ClickCounter.record_all [] ev)
              (exec (ClickCounter.handleClick a ev) s))
      with (exec (ClickCounter.handleClick a ev) s).
    rewrite exec_handleClick. cbn [ClickCounter.clicks ClickCounter.set_clicks last].
    rewrite filter_app. cbn [filter]. rewrite (in_window_self _ Hw).
    reflexivity.
  - assert (Hne' : b :: rest' <> []) by discriminate.
    rewrite (IH _ Hne' Hrest); rewrite timeWindow_handleClick; [|exact Hw].
    rewrite exec_handleClick. simpl ClickCounter.clicks.
    set (final := last (b :: rest') 0%Z).
    assert (Hfinal : (a <= final)%Z).
    { rewrite Forall_forall in Ha. apply Ha.
      apply last_in_list. exact Hne'. }
    change (last (a :: b :: rest') 0%Z) with final.
    rewrite <- !app_assoc. rewrite !filter_app.
    rewrite (filter_in_window_later _ _ Hfinal).
    change (a :: b :: rest') with ([a] ++ b :: rest').
    rewrite filter_app. reflexivity.
Qed.

Lemma sorted_filter_suffix now window l :
  StronglySorted Z.le l ->
  exists old, l = old ++ filter (ClickCounter.in_window now window) l.
Proof.
  induction l as [|a l IH]; intro Hs; [exists []; reflexivity|].
  apply StronglySorted_inv in Hs. destruct Hs as [Hl Ha].
  simpl. destruct (ClickCounter.in_window now window a) eqn:E.
  - exists []. simpl. f_equal. symmetry.
    apply forallb_filter_id. apply forallb_forall. intros time Hin.
    rewrite Forall_forall in Ha. specialize (Ha time Hin).
    unfold ClickCounter.in_window in *. apply Z.ltb_lt.
    apply Z.ltb_lt in E. lia.
  - destruct (IH Hl) as [old Hold]. exists (a :: old).
    simpl. f_equal. exact Hold.
Qed.

(** X4.  When the clicks arrive with a clock that does not go backwards
    and the window is positive, the log kept by a counter is exactly the
    part of the whole click history that lies within the window of the
    latest click, and it is a suffix of that history: evicting on every
    click loses nothing that a single eviction at the end would keep. *)
Theorem X4_log_is_recent_history
  (cb : bool) (ev : MouseEvent) (window : Z) (times : list Z)
  (Hw : (0 < window)%Z)
  (Hsorted : StronglySorted Z.le times)
  (Hne : times <> []) :
  let log :=
    ClickCounter.clicks
      (exec (ClickCounter.record_all times ev)
         (ClickCounter.new (ClickCounter.mkOptions (Some window) cb))) in
  log = filter (ClickCounter.in_window (last times 0%Z) window) times
  /\ exists old, times = old ++ log.
Proof.
  intro log.
  assert (Hwin : ClickCounter.timeWindow
            (ClickCounter.new (ClickCounter.mkOptions (Some window) cb))
          = window).
  { simpl. destruct (Z.eqb_spec window 0); [lia|reflexivity]. }
  assert (Hlog : log =
            filter (ClickCounter.in_window (last times 0%Z) window) times).
  { unfold log. rewrite (record_all_history ev _ Hne Hsorted);
      rewrite Hwin; [reflexivity|exact Hw]. }
  split; [exact Hlog|].
  rewrite Hlog. apply sorted_filter_suffix. exact Hsorted.
Qed.

Lemma X4_log_is_recent_history_witness :
  ((0 < 1000)%Z
   /\ StronglySorted Z.le [0; 100; 1050; 1100]%Z
   /\ [0; 100; 1050; 1100]%Z <> [])
  /\ ClickCounter.clicks
       (exec (ClickCounter.record_all [0; 100; 1050; 1100]%Z (mkEvent 0 0 0))
          (ClickCounter.new (ClickCounter.mkOptions (Some 1000%Z) true))) =
     [1050; 1100]%Z.
Proof.
  assert (Hs : StronglySorted Z.le [0; 100; 1050; 1100]%Z).
  { repeat constructor; lia. }
  split; [split; [lia|split; [exact Hs|discriminate]]|].
  apply (@X4_log_is_recent_history true (mkEvent 0 0 0) 1000
           [0; 100; 1050; 1100]%Z ltac:(lia) Hs ltac:(discriminate)).
Defined.

(** X5.  A negative [timeWindow] is truthy and is therefore used as given.
    With such a window and a log that holds no timestamp from the future,
    a click leaves the log with that click alone and reports count 1, and
    a read at the same or a later instant returns 0. *)
Theorem X5_negative_window
  (cb : bool) (window : Z) (log : list Z) (now now' : Z) (ev : MouseEvent)
  (Hw : (window < 0)%Z)
  (Hpast : Forall (fun time => (time <= now)%Z) log)
  (Hlater : (now <= now')%Z) :
  let s := ClickCounter.set_clicks log
             (ClickCounter.new (ClickCounter.mkOptions (Some window) cb)) in
  let s' := exec (ClickCounter.handleClick now ev) s in
  ClickCounter.timeWindow s = window
  /\ ClickCounter.clicks s' = [now]
  /\ calls (ClickCounter.handleClick now ev) s =
     (if cb then [(1%nat, ev)] else [])
  /\ result (ClickCounter.getCount now') s' = 0%nat.
Proof.
  intros s s'.
  assert (Hwin : ClickCounter.timeWindow s = window).
  { simpl. destruct (Z.eqb_spec window 0); [lia|reflexivity]. }
  assert (Hnone : filter (ClickCounter.in_window now window) log = []).
  { clear - Hw Hpast. induction Hpast as [|a l Ha _ IH]; [reflexivity|].
    simpl. rewrite IH.
    replace (ClickCounter.in_window now window a) with false; [reflexivity|].
    symmetry. unfold ClickCounter.in_window. apply Z.ltb_ge. lia. }
  split; [exact Hwin|].
  unfold s'. rewrite exec_handleClick, calls_handleClick, Hwin.
  simpl ClickCounter.clicks. simpl ClickCounter.callback. rewrite Hnone.
  split; [reflexivity|]. split; [reflexivity|].
  unfold result. rewrite run_getCount. simpl.
  destruct (Z.eqb_spec window 0); [lia|].
  replace (ClickCounter.in_window now' window now) with false; [reflexivity|].
  symmetry. unfold ClickCounter.in_window. apply Z.ltb_ge. lia.
Qed.

Lemma X5_negative_window_witness :
  ((-5 < 0)%Z
   /\ Forall (fun time => (time <= 100)%Z) [90; 99]%Z
   /\ (100 <= 100)%Z)
  /\ result (ClickCounter.getCount 100)
       (exec (ClickCounter.handleClick 100 (mkEvent 0 0 0))
          (ClickCounter.set_clicks [90; 99]%Z
             (ClickCounter.new (ClickCounter.mkOptions (Some (-5)%Z) true))))
     = 0%nat.
Proof.
  assert (Hp : Forall (fun time => (time <= 100)%Z) [90; 99]%Z).
  { repeat constructor; lia. }
  split; [split; [lia|split; [exact Hp|lia]]|].
  apply (@X5_negative_window true (-5) [90; 99]%Z 100 100 (mkEvent 0 0 0)
           ltac:(lia) Hp ltac:(lia)).
Defined.

(** ** DragAndDrop: listeners and whole gestures *)

Lemma listener_eqb_eq a b : DragAndDrop.listener_eqb a b = true <-> a = b.
Proof.
  destruct a as [ta ya ha], b as [tb yb hb].
  unfold DragAndDrop.listener_eqb. simpl.
  destruct ta, tb, ya, yb, ha, hb; simpl; split; intro H;
    try reflexivity; discriminate.
Qed.

Lemma listener_eqb_refl a : DragAndDrop.listener_eqb a a = true.
Proof. apply listener_eqb_eq. reflexivity. Qed.

Lemma in_add_listener l ls x :
  In x (DragTrace.add_listener l ls) <-> x = l \/ In x ls.
Proof.
  unfold DragTrace.add_listener.
  destruct (existsb (DragAndDrop.listener_eqb l) ls) eqn:E.
  - split; [tauto|]. intros [->|H]; [|exact H].
    apply existsb_exists in E. destruct E as [y [Hy Heq]].
    apply listener_eqb_eq in Heq. subst y. exact Hy.
  - rewrite in_app_iff. simpl. split; intros [H|H]; auto.
    + destruct H as [H|[]]. auto.
Qed.

Lemma in_remove_listener l ls x :
  In x (DragTrace.remove_listener l ls) <-> In x ls /\ x <> l.
Proof.
  unfold DragTrace.remove_listener. rewrite filter_In.
  split; intros [H1 H2]; split; try exact H1.
  - intros ->. rewrite listener_eqb_refl in H2. discriminate.
  - destruct (DragAndDrop.listener_eqb l x) eqn:E; [|reflexivity].
    apply listener_eqb_eq in E. congruence.
Qed.

Lemma nodup_add_listener l ls :
  NoDup ls -> NoDup (DragTrace.add_listener l ls).
Proof.
  intro H. unfold DragTrace.add_listener.
  destruct (existsb (DragAndDrop.listener_eqb l) ls) eqn:E; [exact H|].
  apply NoDup_app; [exact H|repeat constructor; intros []|].
  intros x Hx [Hl|[]]. subst x.
  assert (existsb (DragAndDrop.listener_eqb l) ls = true).
  { apply existsb_exists. exists l. split; [exact Hx|apply listener_eqb_refl]. }
  congruence.
Qed.

Lemma nodup_remove_listener l ls :
  NoDup ls -> NoDup (DragTrace.remove_listener l ls).
Proof. intro H. apply NoDup_filter. exact H. Qed.

Lemma run_start s :
  DragAndDrop.start s =
  (tt,
   DragAndDrop.set_listeners
     (DragTrace.add_listener DragTrace.on_mousedown (DragAndDrop.listeners s)) s,
   []).
Proof.
  unfold DragAndDrop.start, DragAndDrop.addEventListener, modify,
    DragTrace.add_listener, DragTrace.on_mousedown.
  destruct (existsb _ _); [|reflexivity].
  destruct s; reflexivity.
Qed.

Lemma run_stop s :
  DragAndDrop.stop s =
  (tt,
   DragAndDrop.set_listeners
     (DragTrace.remove_listener DragTrace.on_mouseup
        (DragTrace.remove_listener DragTrace.on_mousemove
           (DragTrace.remove_listener DragTrace.on_mousedown
              (DragAndDrop.listeners s)))) s,
   []).
Proof. reflexivity. Qed.

Lemma remove_own_idem ls :
  let clear l :=
    DragTrace.remove_listener DragTrace.on_mouseup
      (DragTrace.remove_listener DragTrace.on_mousemove
         (DragTrace.remove_listener DragTrace.on_mousedown l)) in
  clear (clear ls) = clear ls.
Proof.
  intro clear. unfold clear, DragTrace.remove_listener.
  induction ls as [|a ls IH]; [reflexivity|]. simpl.
  destruct (DragAndDrop.listener_eqb DragTrace.on_mousedown a) eqn:E1;
    simpl; [exact IH|].
  destruct (DragAndDrop.listener_eqb DragTrace.on_mousemove a) eqn:E2;
    simpl; [exact IH|].
  destruct (DragAndDrop.listener_eqb DragTrace.on_mouseup a) eqn:E3;
    simpl; [exact IH|].
  rewrite E1. simpl. rewrite E2. simpl. rewrite E3. simpl.
  f_equal. exact IH.
Qed.

Lemma add_listener_idem l ls :
  DragTrace.add_listener l (DragTrace.add_listener l ls) =
  DragTrace.add_listener l ls.
Proof.
  unfold DragTrace.add_listener.
  destruct (existsb (DragAndDrop.listener_eqb l) ls) eqn:E.
  - rewrite E. reflexivity.
  - rewrite existsb_app. simpl.
    rewrite listener_eqb_refl, orb_true_r. reflexivity.
Qed.

Lemma eff_unit_eq {St Call} (m1 m2 : Eff St Call unit) s1 s2 :
  exec m1 s1 = exec m2 s2 -> calls m1 s1 = calls m2 s2 -> m1 s1 = m2 s2.
Proof.
  unfold exec, calls. destruct (m1 s1) as [[[] a1] c1].
  destruct (m2 s2) as [[[] a2] c2]. simpl. intros -> ->. reflexivity.
Qed.

Lemma exec_start s :
  exec DragAndDrop.start s =
  DragAndDrop.set_listeners
    (DragTrace.add_listener DragTrace.on_mousedown (DragAndDrop.listeners s)) s.
Proof. unfold exec. rewrite run_start. reflexivity. Qed.

Lemma exec_stop s :
  exec DragAndDrop.stop s =
  DragAndDrop.set_listeners
    (DragTrace.remove_listener DragTrace.on_mouseup
       (DragTrace.remove_listener DragTrace.on_mousemove
          (DragTrace.remove_listener DragTrace.on_mousedown
             (DragAndDrop.listeners s)))) s.
Proof. reflexivity. Qed.

Lemma calls_start s : calls DragAndDrop.start s = [].
Proof. unfold calls. rewrite run_start. reflexivity. Qed.

Lemma calls_stop s : calls DragAndDrop.stop s = [].
Proof. reflexivity. Qed.

(** X6.  [start()] and [stop()] may be repeated: in any state, a second
    [stop()] changes nothing after the first, a second [start()]
    registers nothing more, a [stop()] undoes any number of [start()]s,
    and none of them calls a callback or touches [isDragging] or the
    stored positions. *)
Theorem X6_start_stop_idempotent (s : DragAndDrop.t) :
  (DragAndDrop.stop ;; DragAndDrop.stop) s = DragAndDrop.stop s
  /\ (DragAndDrop.start ;; DragAndDrop.start) s = DragAndDrop.start s
  /\ (DragAndDrop.start ;; DragAndDrop.start ;; DragAndDrop.stop) s =
     DragAndDrop.stop s
  /\ calls DragAndDrop.stop s = []
  /\ calls DragAndDrop.start s = []
  /\ calls (DragAndDrop.stop ;; DragAndDrop.stop) s = []
  /\ calls (DragAndDrop.start ;; DragAndDrop.start) s = []
  /\ calls (DragAndDrop.start ;; DragAndDrop.start ;; DragAndDrop.stop) s = []
  /\ exec DragAndDrop.stop s =
     DragAndDrop.mk (DragAndDrop.callbacks s) (DragAndDrop.isDragging s)
       (DragAndDrop.startPos s) (DragAndDrop.currentPos s)
       (DragAndDrop.listeners (exec DragAndDrop.stop s))
  /\ exec DragAndDrop.start s =
     DragAndDrop.mk (DragAndDrop.callbacks s) (DragAndDrop.isDragging s)
       (DragAndDrop.startPos s) (DragAndDrop.currentPos s)
       (DragAndDrop.listeners (exec DragAndDrop.start s)).
Proof.
  split; [|split; [|split]].
  4:{ rewrite !calls_seq, !calls_start, !calls_stop, exec_start, exec_stop.
      repeat split. }
  all: apply eff_unit_eq;
    rewrite ?exec_seq, ?calls_seq, ?calls_start, ?calls_stop;
    try reflexivity.
  - rewrite !exec_stop.
    cbn [DragAndDrop.listeners DragAndDrop.set_listeners
         DragAndDrop.callbacks DragAndDrop.isDragging DragAndDrop.startPos
         DragAndDrop.currentPos].
    rewrite (remove_own_idem (DragAndDrop.listeners s)). reflexivity.
  - rewrite !exec_start.
    cbn [DragAndDrop.listeners DragAndDrop.set_listeners
         DragAndDrop.callbacks DragAndDrop.isDragging DragAndDrop.startPos
         DragAndDrop.currentPos].
    rewrite add_listener_idem. reflexivity.
  - rewrite !exec_stop, !exec_start. destruct s as [c d sp cp ls].
    unfold DragAndDrop.set_listeners.
    cbn [DragAndDrop.listeners DragAndDrop.callbacks DragAndDrop.isDragging
         DragAndDrop.startPos DragAndDrop.currentPos].
    rewrite add_listener_idem. f_equal.
    unfold DragTrace.add_listener.
    destruct (existsb _ _); [reflexivity|].
    unfold DragTrace.remove_listener at 3 6.
    rewrite filter_app. simpl. rewrite app_nil_r. reflexivity.
Qed.

Lemma run_handleMouseDown ev s :
  DragAndDrop.handleMouseDown ev s =
  (tt,
   DragAndDrop.mk (DragAndDrop.callbacks s) true
     (DragTrace.event_pos ev) (DragTrace.event_pos ev)
     (DragTrace.add_listener DragTrace.on_mouseup
        (DragTrace.add_listener DragTrace.on_mousemove
           (DragAndDrop.listeners s))),
   if DragAndDrop.onStart (DragAndDrop.callbacks s)
   then [DragAndDrop.OnStart ev (DragTrace.event_pos ev)] else []).
Proof.
  destruct s as [[cs cd ce] d sp cp ls].
  destruct cs;
    cbv [DragAndDrop.handleMouseDown DragAndDrop.addEventListener
         bind modify get when call ret DragTrace.add_listener
         DragTrace.on_mousemove DragTrace.on_mouseup DragTrace.event_pos
         DragAndDrop.set_isDragging DragAndDrop.set_startPos
         DragAndDrop.set_currentPos DragAndDrop.set_listeners
         DragAndDrop.callbacks DragAndDrop.onStart DragAndDrop.listeners
         DragAndDrop.startPos DragAndDrop.isDragging DragAndDrop.currentPos
         app];
    match goal with
    | |- context [existsb ?f ls] => destruct (existsb f ls)
    end;
    match goal with
    | |- context [if existsb ?f ?l then _ else _] => destruct (existsb f l)
    end;
    reflexivity.
Qed.

Lemma run_handleMouseMove ev s :
  DragAndDrop.isDragging s = true ->
  DragAndDrop.handleMouseMove ev s =
  (tt,
   DragAndDrop.set_currentPos (DragTrace.event_pos ev) s,
   if DragAndDrop.onDrag (DragAndDrop.callbacks s)
   then [DragAndDrop.OnDrag ev (DragTrace.event_pos ev)
           (DragTrace.pos_minus (DragTrace.event_pos ev)
              (DragAndDrop.startPos s))]
   else []).
Proof.
  intro H. destruct s as [[cs cd ce] d sp cp ls]. simpl in H. subst d.
  destruct cd; reflexivity.
Qed.

Lemma run_handleMouseUp ev s :
  DragAndDrop.isDragging s = true ->
  DragAndDrop.handleMouseUp ev s =
  (tt,
   DragAndDrop.mk (DragAndDrop.callbacks s) false
     (DragAndDrop.startPos s) (DragAndDrop.currentPos s)
     (DragTrace.remove_listener DragTrace.on_mouseup
        (DragTrace.remove_listener DragTrace.on_mousemove
           (DragAndDrop.listeners s))),
   if DragAndDrop.onEnd (DragAndDrop.callbacks s)
   then [DragAndDrop.OnEnd ev (DragAndDrop.currentPos s)
           (DragTrace.pos_minus (DragAndDrop.currentPos s)
              (DragAndDrop.startPos s))]
   else []).
Proof.
  intro H. destruct s as [[cs cd ce] d sp cp ls]. simpl in H. subst d.
  destruct ce; reflexivity.
Qed.

Lemma own_three l :
  own_listener l <->
  l = DragTrace.on_mousedown \/ l = DragTrace.on_mousemove
  \/ l = DragTrace.on_mouseup.
Proof. reflexivity. Qed.

Lemma tidy_handleMouseDown ev :
  preserves DragTrace.tidy (DragAndDrop.handleMouseDown ev).
Proof.
  intros s (Hnd & Hown & Hiff & Hdrag).
  unfold exec. rewrite run_handleMouseDown. unfold DragTrace.tidy. simpl.
  split; [|split; [|split]].
  - apply nodup_add_listener, nodup_add_listener, Hnd.
  - apply Forall_forall. intros l Hl.
    apply in_add_listener in Hl. destruct Hl as [->|Hl];
      [apply own_three; tauto|].
    apply in_add_listener in Hl. destruct Hl as [->|Hl];
      [apply own_three; tauto|].
    rewrite Forall_forall in Hown. apply Hown, Hl.
  - split; intros _.
    + apply in_add_listener. left. reflexivity.
    + apply in_add_listener. right. apply in_add_listener. left. reflexivity.
  - reflexivity.
Qed.

Lemma tidy_handleMouseMove ev :
  preserves DragTrace.tidy (DragAndDrop.handleMouseMove ev).
Proof.
  intros s H. destruct (DragAndDrop.isDragging s) eqn:E.
  - unfold exec. rewrite (run_handleMouseMove _ _ E). exact H.
  - unfold exec. rewrite (idle_handleMouseMove _ _ E). exact H.
Qed.

Lemma tidy_handleMouseUp ev :
  preserves DragTrace.tidy (DragAndDrop.handleMouseUp ev).
Proof.
  intros s H. destruct (DragAndDrop.isDragging s) eqn:E.
  - destruct H as (Hnd & Hown & Hiff & Hdrag).
    unfold exec. rewrite (run_handleMouseUp _ _ E).
    unfold DragTrace.tidy. simpl.
    split; [|split; [|split]].
    + apply nodup_remove_listener, nodup_remove_listener, Hnd.
    + apply Forall_forall. intros l Hl.
      apply in_remove_listener in Hl. destruct Hl as [Hl _].
      apply in_remove_listener in Hl. destruct Hl as [Hl _].
      rewrite Forall_forall in Hown. apply Hown, Hl.
    + split; intro Hin.
      * apply in_remove_listener in Hin. destruct Hin as [Hin _].
        apply in_remove_listener in Hin. destruct Hin as [_ Hne]. congruence.
      * apply in_remove_listener in Hin. destruct Hin as [_ Hne]. congruence.
    + intro Hin.
      apply in_remove_listener in Hin. destruct Hin as [Hin _].
      apply in_remove_listener in Hin. destruct Hin as [_ Hne]. congruence.
  - unfold exec. rewrite (idle_handleMouseUp _ _ E). exact H.
Qed.

Lemma tidy_start : preserves DragTrace.tidy DragAndDrop.start.
Proof.
  intros s (Hnd & Hown & Hiff & Hdrag). rewrite exec_start.
  unfold DragTrace.tidy. simpl.
  split; [|split; [|split]].
  - apply nodup_add_listener, Hnd.
  - apply Forall_forall. intros l Hl.
    apply in_add_listener in Hl. destruct Hl as [->|Hl];
      [apply own_three; tauto|].
    rewrite Forall_forall in Hown. apply Hown, Hl.
  - rewrite !in_add_listener. split; intros [Heq|Hin];
      try discriminate; right; apply Hiff, Hin.
  - rewrite in_add_listener. intros [Heq|Hin]; [discriminate|].
    apply Hdrag, Hin.
Qed.

Lemma tidy_stop : preserves DragTrace.tidy DragAndDrop.stop.
Proof.
  intros s (Hnd & Hown & Hiff & Hdrag). rewrite exec_stop.
  unfold DragTrace.tidy. simpl.
  split; [|split; [|split]].
  - do 3 apply nodup_remove_listener. exact Hnd.
  - apply Forall_forall. intros l Hl.
    do 3 (apply in_remove_listener in Hl; destruct Hl as [Hl _]).
    rewrite Forall_forall in Hown. apply Hown, Hl.
  - rewrite !in_remove_listener. split; intro H.
    + destruct H as [[_ Hne] _]. congruence.
    + destruct H as [_ Hne]. congruence.
  - rewrite !in_remove_listener. intros [[_ Hne] _]. congruence.
Qed.

Lemma tidy_run_handlers hs ev :
  preserves DragTrace.tidy (DragAndDrop.run_handlers hs ev).
Proof.
  induction hs as [|h hs IH]; simpl; [apply preserves_ret|].
  apply preserves_bind; [|intros _; exact IH].
  destruct h; simpl;
    [ apply tidy_handleMouseDown | apply tidy_handleMouseMove
    | apply tidy_handleMouseUp ].
Qed.

Lemma tidy_run inputs : preserves DragTrace.tidy (DragAndDrop.run inputs).
Proof.
  induction inputs as [|i inputs IH]; simpl; [apply preserves_ret|].
  apply preserves_bind; [|intros _; exact IH].
  destruct i; simpl.
  - unfold DragAndDrop.dispatch.
    apply preserves_bind; [apply preserves_get|]. intro s.
    apply tidy_run_handlers.
  - apply tidy_start.
  - apply tidy_stop.
Qed.

(** X7.  Whatever events are delivered and however [start()] and [stop()]
    are called on a tracker, it never has a listener registered twice, it
    has no listener other than its own three, and its two document-level
    listeners are registered only together and only while [isDragging] is
    set: they do not outlive a drag. *)
Theorem X7_listeners_stay_tidy
  (cbs : DragAndDrop.Callbacks) (inputs : list DragAndDrop.Input) :
  let s := exec (DragAndDrop.run inputs) (DragAndDrop.new cbs) in
  NoDup (DragAndDrop.listeners s)
  /\ Forall own_listener (DragAndDrop.listeners s)
  /\ (In DragTrace.on_mousemove (DragAndDrop.listeners s) <->
      In DragTrace.on_mouseup (DragAndDrop.listeners s))
  /\ (In DragTrace.on_mousemove (DragAndDrop.listeners s) ->
      DragAndDrop.isDragging s = true).
Proof.
  intro s. apply tidy_run. unfold DragTrace.tidy. simpl.
  split; [|split; [|split]].
  - repeat constructor. intros [].
  - constructor; [apply own_three; tauto|constructor].
  - split; intros [H|[]]; discriminate.
  - intros [H|[]]. discriminate.
Qed.

Lemma exec_bind {St Call A B} (m : Eff St Call A) (k : A -> Eff St Call B) s :
  exec (bind m k) s = exec (k (result m s)) (exec m s).
Proof.
  unfold exec, result, bind. destruct (m s) as [[a s1] c1].
  simpl. destruct (k a s1) as [[b s2] c2]. reflexivity.
Qed.

Lemma calls_bind {St Call A B} (m : Eff St Call A) (k : A -> Eff St Call B) s :
  calls (bind m k) s = calls m s ++ calls (k (result m s)) (exec m s).
Proof.
  unfold calls, exec, result, bind. destruct (m s) as [[a s1] c1].
  simpl. destruct (k a s1) as [[b s2] c2]. reflexivity.
Qed.

Lemma eff_unit_run {St Call} (m : Eff St Call unit) s s' c :
  exec m s = s' -> calls m s = c -> m s = (tt, s', c).
Proof.
  unfold exec, calls. destruct (m s) as [[[] a1] c1]. simpl.
  intros -> ->. reflexivity.
Qed.

Lemma exec_run_app a b s :
  exec (DragAndDrop.run (a ++ b)) s =
  exec (DragAndDrop.run b) (exec (DragAndDrop.run a) s).
Proof.
  revert s. induction a as [|i a IH]; intro s; [reflexivity|].
  simpl. rewrite !exec_seq. apply IH.
Qed.

Lemma calls_run_app a b s :
  calls (DragAndDrop.run (a ++ b)) s =
  calls (DragAndDrop.run a) s
    ++ calls (DragAndDrop.run b) (exec (DragAndDrop.run a) s).
Proof.
  revert s. induction a as [|i a IH]; intro s; [reflexivity|].
  simpl. rewrite !calls_seq, !exec_seq, IH, app_assoc. reflexivity.
Qed.

Lemma last_cons_default {A} (a d : A) l : last (a :: l) d = last l a.
Proof.
  revert a d. induction l as [|b l IH]; intros a d; [reflexivity|].
  change (last (a :: b :: l) d) with (last (b :: l) d).
  rewrite (IH b d), (IH b a). reflexivity.
Qed.

Lemma drag_moves_run start moves :
  forall e0,
    DragAndDrop.run
      (map (fun m =>
              DragAndDrop.Deliver (fst m) DragAndDrop.mousemove (snd m)) moves)
      (DragAndDrop.mk DragAndDrop.all_callbacks true start
         (DragTrace.event_pos e0)
         [DragTrace.on_mousedown; DragTrace.on_mousemove;
          DragTrace.on_mouseup]) =
    (tt,
     DragAndDrop.mk DragAndDrop.all_callbacks true start
       (DragTrace.event_pos (last (map snd moves) e0))
       [DragTrace.on_mousedown; DragTrace.on_mousemove; DragTrace.on_mouseup],
     map (fun m =>
            DragAndDrop.OnDrag (snd m) (DragTrace.event_pos (snd m))
              (DragTrace.pos_minus (DragTrace.event_pos (snd m)) start))
         moves).
Proof.
  induction moves as [|[inside m] moves IH]; intro e0; [reflexivity|].
  apply eff_unit_run.
  - cbn [map fst snd DragAndDrop.run]. rewrite exec_seq.
    rewrite last_cons_default.
    replace (exec (DragAndDrop.step
                     (DragAndDrop.Deliver inside DragAndDrop.mousemove m)) _)
      with (DragAndDrop.mk DragAndDrop.all_callbacks true start
              (DragTrace.event_pos m)
              [DragTrace.on_mousedown; DragTrace.on_mousemove;
               DragTrace.on_mouseup])
      by (destruct inside; reflexivity).
    unfold exec at 1. rewrite IH. reflexivity.
  - cbn [map fst snd DragAndDrop.run]. rewrite calls_seq.
    replace (exec (DragAndDrop.step
                     (DragAndDrop.Deliver inside DragAndDrop.mousemove m)) _)
      with (DragAndDrop.mk DragAndDrop.all_callbacks true start
              (DragTrace.event_pos m)
              [DragTrace.on_mousedown; DragTrace.on_mousemove;
               DragTrace.on_mouseup])
      by (destruct inside; reflexivity).
    unfold calls at 2. rewrite IH.
    destruct inside; reflexivity.
Qed.

(** X8.  A whole gesture on a fresh tracker with all callbacks: [onStart]
    is called with the press position, [onDrag] once per move with the
    move position and its offset from the press, and [onEnd] with the
    position of the last move (of the press when there was none) and its
    offset from the press.  The coordinates of the release event are not
    used.  Afterwards the tracker is idle with only its [mousedown]
    listener registered. *)
Theorem X8_gesture_trace
  (press release : MouseEvent) (moves : list (bool * MouseEvent))
  (inside : bool) :
  let start := DragTrace.event_pos press in
  let final := DragTrace.event_pos (last (map snd moves) press) in
  DragAndDrop.run (DragTrace.gesture press moves inside release)
    (DragAndDrop.new DragAndDrop.all_callbacks) =
  (tt,
   DragAndDrop.mk DragAndDrop.all_callbacks false start final
     [DragTrace.on_mousedown],
   DragAndDrop.OnStart press start
   :: map (fun m =>
             DragAndDrop.OnDrag (snd m) (DragTrace.event_pos (snd m))
               (DragTrace.pos_minus (DragTrace.event_pos (snd m)) start))
        moves
   ++ [DragAndDrop.OnEnd release final (DragTrace.pos_minus final start)]).
Proof.
  intros start final. subst start final. unfold DragTrace.gesture.
  set (mv := map _ moves).
  set (up := [DragAndDrop.Deliver inside DragAndDrop.mouseup release]).
  assert (Hpress :
    DragAndDrop.step (DragAndDrop.Deliver true DragAndDrop.mousedown press)
      (DragAndDrop.new DragAndDrop.all_callbacks) =
    (tt,
     DragAndDrop.mk DragAndDrop.all_callbacks true
       (DragTrace.event_pos press) (DragTrace.event_pos press)
       [DragTrace.on_mousedown; DragTrace.on_mousemove; DragTrace.on_mouseup],
     [DragAndDrop.OnStart press (DragTrace.event_pos press)]))
    by reflexivity.
  pose proof (drag_moves_run (DragTrace.event_pos press) moves press)
    as Hmoves.
  fold mv in Hmoves.
  apply eff_unit_run.
  - cbn [DragAndDrop.run]. rewrite exec_seq. unfold exec at 2.
    rewrite Hpress. cbn [fst snd]. rewrite exec_run_app.
    unfold exec at 2. rewrite Hmoves. cbn [fst snd].
    unfold up. destruct inside; reflexivity.
  - cbn [DragAndDrop.run]. rewrite calls_seq. unfold calls at 1.
    unfold exec at 1. rewrite Hpress. cbn [fst snd].
    rewrite calls_run_app. unfold calls at 1. unfold exec at 1.
    rewrite Hmoves. cbn [fst snd app]. f_equal. f_equal.
    unfold up. destruct inside; reflexivity.
Qed.

Lemma starts_app a b :
  DragTrace.starts (a ++ b) = (DragTrace.starts a + DragTrace.starts b)%nat.
Proof. unfold DragTrace.starts. rewrite filter_app, length_app. reflexivity. Qed.

Lemma ends_app a b :
  DragTrace.ends (a ++ b) = (DragTrace.ends a + DragTrace.ends b)%nat.
Proof. unfold DragTrace.ends. rewrite filter_app, length_app. reflexivity. Qed.

Lemma balanced_ret {A} (a : A) : DragTrace.balanced (ret a).
Proof. intros s H. split; [exact H|]. unfold exec, calls, ret. simpl. lia. Qed.

Lemma balanced_bind {A B}
  (m : Eff DragAndDrop.t DragAndDrop.Call A)
  (k : A -> Eff DragAndDrop.t DragAndDrop.Call B) :
  DragTrace.balanced m -> (forall a, DragTrace.balanced (k a)) ->
  DragTrace.balanced (bind m k).
Proof.
  intros Hm Hk s H. destruct (Hm s H) as [H1 L1].
  destruct (Hk (result m s) (exec m s) H1) as [H2 L2].
  rewrite exec_bind, calls_bind, starts_app, ends_app.
  split; [exact H2|lia].
Qed.

Lemma balanced_handleMouseDown ev :
  DragTrace.balanced (DragAndDrop.handleMouseDown ev).
Proof.
  intros s H. unfold exec, calls. rewrite run_handleMouseDown, H.
  cbn [fst snd DragAndDrop.callbacks]. split; [exact H|].
  unfold DragTrace.dragging. simpl. destruct (DragAndDrop.isDragging s); lia.
Qed.

Lemma balanced_handleMouseMove ev :
  DragTrace.balanced (DragAndDrop.handleMouseMove ev).
Proof.
  intros s H. unfold exec, calls.
  destruct (DragAndDrop.isDragging s) eqn:E.
  - rewrite (run_handleMouseMove _ _ E). cbn [fst snd]. split; [exact H|].
    unfold DragTrace.dragging. simpl. rewrite E.
    destruct (DragAndDrop.onDrag _); simpl; lia.
  - rewrite (idle_handleMouseMove _ _ E). cbn [fst snd]. split; [exact H|].
    simpl. lia.
Qed.

Lemma balanced_handleMouseUp ev :
  DragTrace.balanced (DragAndDrop.handleMouseUp ev).
Proof.
  intros s H. unfold exec, calls.
  destruct (DragAndDrop.isDragging s) eqn:E.
  - rewrite (run_handleMouseUp _ _ E). cbn [fst snd]. split; [exact H|].
    unfold DragTrace.dragging. simpl. rewrite E.
    destruct (DragAndDrop.onEnd _); simpl; lia.
  - rewrite (idle_handleMouseUp _ _ E). cbn [fst snd]. split; [exact H|].
    simpl. lia.
Qed.

Lemma balanced_start : DragTrace.balanced DragAndDrop.start.
Proof.
  intros s H. rewrite exec_start, calls_start. split; [exact H|].
  unfold DragTrace.dragging. simpl. lia.
Qed.

Lemma balanced_stop : DragTrace.balanced DragAndDrop.stop.
Proof.
  intros s H. rewrite exec_stop, calls_stop. split; [exact H|].
  unfold DragTrace.dragging. simpl. lia.
Qed.

Lemma balanced_run_handlers hs ev :
  DragTrace.balanced (DragAndDrop.run_handlers hs ev).
Proof.
  induction hs as [|h hs IH]; simpl; [apply balanced_ret|].
  apply balanced_bind; [|intros _; exact IH].
  destruct h; simpl;
    [ apply balanced_handleMouseDown | apply balanced_handleMouseMove
    | apply balanced_handleMouseUp ].
Qed.

Lemma balanced_run inputs : DragTrace.balanced (DragAndDrop.run inputs).
Proof.
  induction inputs as [|i inputs IH]; simpl; [apply balanced_ret|].
  apply balanced_bind; [|intros _; exact IH].
  destruct i; simpl.
  - unfold DragAndDrop.dispatch. apply balanced_bind.
    + intros s H. split; [exact H|]. unfold exec, calls, get. simpl. lia.
    + intro s. apply balanced_run_handlers.
  - apply balanced_start.
  - apply balanced_stop.
Qed.

(** X9.  When an [onStart] callback is supplied, [onEnd] never gets ahead
    of it: over any sequence of deliveries, [start()]s and [stop()]s on a
    fresh tracker, [onEnd] has been called at most as often as [onStart],
    and strictly less often while a drag is in progress. *)
Theorem X9_end_never_overtakes_start
  (cbs : DragAndDrop.Callbacks) (inputs : list DragAndDrop.Input)
  (Hstart : DragAndDrop.onStart cbs = true) :
  let trace := calls (DragAndDrop.run inputs) (DragAndDrop.new cbs) in
  let s := exec (DragAndDrop.run inputs) (DragAndDrop.new cbs) in
  (DragTrace.ends trace <= DragTrace.starts trace)%nat
  /\ (DragAndDrop.isDragging s = true ->
      (DragTrace.ends trace < DragTrace.starts trace)%nat).
Proof.
  intros trace s.
  destruct (balanced_run inputs (DragAndDrop.new cbs) Hstart) as [_ H].
  fold trace in H. fold s in H. unfold DragTrace.dragging in H.
  simpl in H. split.
  - lia.
  - intro Hd. rewrite Hd in H. lia.
Qed.

Lemma X9_end_never_overtakes_start_witness :
  DragAndDrop.onStart DragAndDrop.all_callbacks = true
  /\ (DragTrace.ends
        (calls (DragAndDrop.run
                  [DragAndDrop.Deliver true DragAndDrop.mousedown
                     (mkEvent 1 1 0);
                   DragAndDrop.Deliver true DragAndDrop.mousedown
                     (mkEvent 2 2 2);
                   DragAndDrop.Deliver false DragAndDrop.mouseup
                     (mkEvent 3 3 0);
                   DragAndDrop.Deliver false DragAndDrop.mouseup
                     (mkEvent 3 3 2)])
           (DragAndDrop.new DragAndDrop.all_callbacks)) <=
      DragTrace.starts
        (calls (DragAndDrop.run
                  [DragAndDrop.Deliver true DragAndDrop.mousedown
                     (mkEvent 1 1 0);
                   DragAndDrop.Deliver true DragAndDrop.mousedown
                     (mkEvent 2 2 2);
                   DragAndDrop.Deliver false DragAndDrop.mouseup
                     (mkEvent 3 3 0);
                   DragAndDrop.Deliver false DragAndDrop.mouseup
                     (mkEvent 3 3 2)])
           (DragAndDrop.new DragAndDrop.all_callbacks)))%nat.
Proof.
  split; [reflexivity|].
  apply (@X9_end_never_overtakes_start DragAndDrop.all_callbacks _ eq_refl).
Defined.

(** ** MouseButtons: the flags over a whole run *)

Lemma step_flags s i :
  MouseButtons.left (ButtonRuns.step s i) =
    (if (ButtonRuns.index_of i =? 0)%Z then ButtonRuns.is_press i
     else MouseButtons.left s)
  /\ MouseButtons.middle (ButtonRuns.step s i) =
    (if (ButtonRuns.index_of i =? 1)%Z then ButtonRuns.is_press i
     else MouseButtons.middle s)
  /\ MouseButtons.right (ButtonRuns.step s i) =
    (if (ButtonRuns.index_of i =? 2)%Z then ButtonRuns.is_press i
     else MouseButtons.right s).
Proof.
  destruct i as [ev|ev]; simpl;
    unfold MouseButtons.handleMouseDown, MouseButtons.handleMouseUp;
    button_cases ev; simpl; repeat split.
Qed.

(** X10.  After any sequence of press and release events, each flag tells
    whether the latest event carrying its own button index (0 for left, 1
    for middle, 2 for right) was a press, and keeps its earlier value if
    there was no such event: events for other buttons, known or unknown,
    never disturb it. *)
Theorem X10_flags_follow_latest
  (inputs : list ButtonRuns.Input) (s : MouseButtons.t) :
  let s' := ButtonRuns.run inputs s in
  MouseButtons.isPressed "left" s' =
    ButtonRuns.latest 0 (MouseButtons.isPressed "left" s) inputs
  /\ MouseButtons.isPressed "middle" s' =
    ButtonRuns.latest 1 (MouseButtons.isPressed "middle" s) inputs
  /\ MouseButtons.isPressed "right" s' =
    ButtonRuns.latest 2 (MouseButtons.isPressed "right" s) inputs.
Proof.
  change (MouseButtons.isPressed "left") with MouseButtons.left.
  change (MouseButtons.isPressed "middle") with MouseButtons.middle.
  change (MouseButtons.isPressed "right") with MouseButtons.right.
  revert s. induction inputs as [|i inputs IH]; intro s; [repeat split|].
  simpl. destruct (IH (ButtonRuns.step s i)) as (Hl & Hm & Hr).
  destruct (step_flags s i) as (El & Em & Er).
  unfold ButtonRuns.run in *. simpl.
  rewrite Hl, Hm, Hr, El, Em, Er. repeat split.
Qed.

(** ** MovementTracker: clock anomalies and first samples *)

(** X11.  A move event whose clock reading is not later than the stored
    last event time (the clock stood still or went backwards) calls no
    observer and keeps the velocity that [getVelocity()] returns; it still
    stores the event's position and its clock reading, so the stored time
    moves backwards with the clock. *)
Theorem X11_clock_not_advancing
  (s : MovementTracker.t) (now : Z) (ev : MouseEvent)
  (Hback : (now <= MovementTracker.lastTime s)%Z) :
  MovementTracker.handleMove now ev s =
  (tt,
   MovementTracker.mk (MovementTracker.callback s)
     (mkPos (clientX ev) (clientY ev)) now (MovementTracker.velocity s),
   [])
  /\ MovementTracker.getVelocity (exec (MovementTracker.handleMove now ev) s) =
     MovementTracker.getVelocity s.
Proof.
  assert (E : MovementTracker.handleMove now ev s =
    (tt,
     MovementTracker.mk (MovementTracker.callback s)
       (mkPos (clientX ev) (clientY ev)) now (MovementTracker.velocity s),
     [])).
  { unfold MovementTracker.handleMove, bind, get, modify.
    replace (0 <? now - MovementTracker.lastTime s)%Z with false;
      [reflexivity|].
    symmetry. apply Z.ltb_ge. lia. }
  split; [exact E|]. unfold exec. rewrite E. reflexivity.
Qed.

Lemma X11_clock_not_advancing_witness :
  (400 <= MovementTracker.lastTime
            (MovementTracker.mk true (mkPos 1 2) 500 (mkPos 3 4)))%Z
  /\ MovementTracker.handleMove 400 (mkEvent 7 8 0)
       (MovementTracker.mk true (mkPos 1 2) 500 (mkPos 3 4)) =
     (tt, MovementTracker.mk true (mkPos 7 8) 400 (mkPos 3 4), []).
Proof.
  split; [simpl; lia|].
  apply (@X11_clock_not_advancing
           (MovementTracker.mk true (mkPos 1 2) 500 (mkPos 3 4)) 400
           (mkEvent 7 8 0) ltac:(simpl; lia)).
Defined.



Lemma atan2_origin : atan2 0 0 = 0%R.
Proof.
  unfold atan2.
  destruct (Rlt_dec 0 0) as [H|_]; [lra|].
  destruct (Rlt_dec 0 0) as [H|_]; [lra|]. reflexivity.
Qed.

(** X14.  A move event that repeats the stored previous position after a
    positive time is reported with velocity (0,0), speed 0 and angle 0. *)
Theorem X14_no_displacement
  (s : MovementTracker.t) (now : Z) (ev : MouseEvent)
  (Hdt : (0 < now - MovementTracker.lastTime s)%Z)
  (Hcb : MovementTracker.callback s = true)
  (Hsame : mkPos (clientX ev) (clientY ev) = MovementTracker.lastPos s) :
  calls (MovementTracker.handleMove now ev) s =
  [MovementTracker.mkSample (mkPos 0 0) 0 0 (MovementTracker.lastPos s)].
Proof.
  assert (Hpos : (0 < IZR (now - MovementTracker.lastTime s))%R)
    by (apply (IZR_lt 0); exact Hdt).
  unfold calls. rewrite handleMove_later by exact Hdt. rewrite Hcb.
  cbn [snd pos_x pos_y]. rewrite <- Hsame. cbn [pos_x pos_y].
  rewrite !Rminus_diag.
  replace (0 / IZR (now - MovementTracker.lastTime s))%R with 0%R
    by (field; lra).
  replace (0 ^ 2 + 0 ^ 2)%R with 0%R by ring.
  rewrite sqrt_0, atan2_origin, Rmult_0_l. reflexivity.
Qed.

Lemma X14_no_displacement_witness :
  ((0 < 600 - MovementTracker.lastTime
                (MovementTracker.mk true (mkPos 7 8) 500 (mkPos 3 4)))%Z
   /\ MovementTracker.callback
        (MovementTracker.mk true (mkPos 7 8) 500 (mkPos 3 4)) = true
   /\ mkPos (clientX (mkEvent 7 8 0)) (clientY (mkEvent 7 8 0)) =
      MovementTracker.lastPos
        (MovementTracker.mk true (mkPos 7 8) 500 (mkPos 3 4)))
  /\ calls (MovementTracker.handleMove 600 (mkEvent 7 8 0))
       (MovementTracker.mk true (mkPos 7 8) 500 (mkPos 3 4)) =
     [MovementTracker.mkSample (mkPos 0 0) 0 0
        (MovementTracker.lastPos
           (MovementTracker.mk true (mkPos 7 8) 500 (mkPos 3 4)))].
Proof.
  split; [split; [reflexivity|split; reflexivity]|].
  apply (@X14_no_displacement
           (MovementTracker.mk true (mkPos 7 8) 500 (mkPos 3 4)) 600
           (mkEvent 7 8 0) eq_refl eq_refl eq_refl).
Defined.

(** ** CustomCursor: smoothing over several frames *)

Lemma run_update_smooth s :
  CustomCursor.smooth s = true ->
  CustomCursor.update s =
  (tt,
   CustomCursor.mk true (CustomCursor.offset s)
     (mkPos (pos_x (CustomCursor.currentPos s)
             + (pos_x (CustomCursor.targetPos s)
                - pos_x (CustomCursor.currentPos s)) * 0.3)
            (pos_y (CustomCursor.currentPos s)
             + (pos_y (CustomCursor.targetPos s)
                - pos_y (CustomCursor.currentPos s)) * 0.3))
     (CustomCursor.targetPos s)
     (Some (CustomCursor.nextHandle s))
     (CustomCursor.listening s)
     (S (CustomCursor.nextHandle s)),
   [CustomCursor.SetTransform
      (pos_x (CustomCursor.currentPos s)
       + (pos_x (CustomCursor.targetPos s)
          - pos_x (CustomCursor.currentPos s)) * 0.3)
      (pos_y (CustomCursor.currentPos s)
       + (pos_y (CustomCursor.targetPos s)
          - pos_y (CustomCursor.currentPos s)) * 0.3);
    CustomCursor.RequestAnimationFrame (CustomCursor.nextHandle s)]).
Proof.
  intro H. destruct s as [sm off c t a l n]. simpl in H. subst sm.
  reflexivity.
Qed.

Lemma run_handleMove_smooth ev s :
  CustomCursor.smooth s = true ->
  CustomCursor.handleMove ev s =
  (tt,
   CustomCursor.set_targetPos
     (mkPos (clientX ev + pos_x (CustomCursor.offset s))
            (clientY ev + pos_y (CustomCursor.offset s))) s,
   []).
Proof.
  intro H. destruct s as [sm off c t a l n]. simpl in H. subst sm.
  reflexivity.
Qed.


Lemma moves_smooth last :
  forall evs s,
    CustomCursor.smooth s = true ->
    CursorRuns.moves (evs ++ [last]) s =
    (tt,
     CustomCursor.set_targetPos
       (mkPos (clientX last + pos_x (CustomCursor.offset s))
              (clientY last + pos_y (CustomCursor.offset s))) s,
     []).
Proof.
  induction evs as [|e evs IH]; intros s Hs.
  - simpl. unfold bind. rewrite (run_handleMove_smooth _ _ Hs). reflexivity.
  - cbn [app CursorRuns.moves]. unfold bind.
    rewrite (run_handleMove_smooth _ _ Hs).
    rewrite IH by exact Hs. destruct s; reflexivity.
Qed.

(** X16.  With smoothing enabled, move events render nothing and only
    replace the target, so of several moves between two frames only the
    last one counts: the next frame moves the current position 30% of the
    way towards the last event's position plus the offset, renders once
    and requests one frame. *)
Theorem X16_moves_then_frame
  (s : CustomCursor.t) (evs : list MouseEvent) (last : MouseEvent)
  (Hsmooth : CustomCursor.smooth s = true) :
  let tgt := mkPos (clientX last + pos_x (CustomCursor.offset s))
                   (clientY last + pos_y (CustomCursor.offset s)) in
  let cur := CustomCursor.currentPos s in
  let next := mkPos (pos_x cur + (pos_x tgt - pos_x cur) * 0.3)
                    (pos_y cur + (pos_y tgt - pos_y cur) * 0.3) in
  calls (CursorRuns.moves (evs ++ [last])) s = []
  /\ CustomCursor.currentPos (exec (CursorRuns.moves (evs ++ [last])) s) = cur
  /\ (CursorRuns.moves (evs ++ [last]) ;; CustomCursor.update) s =
     (tt,
      CustomCursor.mk true (CustomCursor.offset s) next tgt
        (Some (CustomCursor.nextHandle s)) (CustomCursor.listening s)
        (S (CustomCursor.nextHandle s)),
      [CustomCursor.SetTransform (pos_x next) (pos_y next);
       CustomCursor.RequestAnimationFrame (CustomCursor.nextHandle s)]).
Proof.
  intros tgt cur next.
  pose proof (moves_smooth last evs s Hsmooth) as Hm. fold tgt in Hm.
  unfold calls, exec, bind. rewrite Hm. cbn [fst snd].
  split; [reflexivity|]. split; [reflexivity|].
  rewrite run_update_smooth by exact Hsmooth. reflexivity.
Qed.

Lemma X16_moves_then_frame_witness :
  CustomCursor.smooth
    (CustomCursor.new (CustomCursor.mkOptions None None) 1) = true
  /\ calls (CursorRuns.moves ([mkEvent 1 1 0; mkEvent 2 2 0] ++ [mkEvent 9 9 0]))
       (CustomCursor.new (CustomCursor.mkOptions None None) 1) = [].
Proof.
  split; [reflexivity|].
  apply (@X16_moves_then_frame
           (CustomCursor.new (CustomCursor.mkOptions None None) 1)
           [mkEvent 1 1 0; mkEvent 2 2 0] (mkEvent 9 9 0) eq_refl).
Defined.




(** ** MousePosition: one shared position object *)

Lemma update_last (h : list Pos) (p : Pos) f :
  MousePosition.update (List.length h) f (h ++ [p]) = h ++ [f p].
Proof. induction h as [|a h IH]; simpl; [reflexivity|]. rewrite IH. reflexivity. Qed.

Lemma nth_error_last (h : list Pos) (p : Pos) :
  nth_error (h ++ [p]) (List.length h) = Some p.
Proof. induction h as [|a h IH]; simpl; [reflexivity|exact IH]. Qed.

Lemma firstn_prefix (h : list Pos) (p : Pos) :
  firstn (List.length h) (h ++ [p]) = h.
Proof. induction h as [|a h IH]; simpl; [reflexivity|]. rewrite IH. reflexivity. Qed.

Lemma run_position_move cb l h p ev :
  MousePosition.handleMove ev
    (MousePosition.mk cb (List.length h) l (h ++ [p])) =
  (tt,
   MousePosition.mk cb (List.length h) l
     (h ++ [mkPos (clientX ev) (clientY ev)]),
   if cb then [List.length h] else []).
Proof.
  unfold MousePosition.handleMove, bind, modify, get, when, call, ret.
  cbn [MousePosition.position MousePosition.heap MousePosition.set_heap
       MousePosition.callback MousePosition.listening].
  rewrite !update_last. destruct cb; reflexivity.
Qed.

Lemma deliver_listening ev s :
  MousePosition.listening s = true ->
  MousePosition.deliver ev s = MousePosition.handleMove ev s.
Proof.
  intro H. unfold MousePosition.deliver, bind, get. cbv beta iota.
  rewrite H. destruct (MousePosition.handleMove ev s) as [[u s1] c1].
  reflexivity.
Qed.

Lemma run_position_moves cb h last :
  forall evs p,
    MousePosition.moves (evs ++ [last])
      (MousePosition.mk cb (List.length h) true (h ++ [p])) =
    (tt,
     MousePosition.mk cb (List.length h) true
       (h ++ [mkPos (clientX last) (clientY last)]),
     if cb then repeat (List.length h) (S (List.length evs)) else []).
Proof.
  induction evs as [|e evs IH]; intro p.
  - cbn [app MousePosition.moves]. unfold bind.
    rewrite deliver_listening by reflexivity. rewrite run_position_move.
    destruct cb; reflexivity.
  - cbn [app MousePosition.moves]. unfold bind at 1.
    rewrite deliver_listening by reflexivity. rewrite run_position_move.
    rewrite IH. destruct cb; reflexivity.
Qed.

(** X18.  A tracker has a single position object: every move writes into
    it and hands that very object to the callback, and [getPosition()]
    returns it too.  So after any series of moves, every object the
    observer was ever given is the one [getPosition()] returns and reads
    as the position of the latest move; no other object in the heap is
    touched and none is created. *)
Theorem X18_position_object_is_shared
  (cb : bool) (h : list Pos) (evs : list MouseEvent) (last : MouseEvent) :
  let s0 := MousePosition.new cb h in
  let s' := exec (MousePosition.moves (evs ++ [last])) s0 in
  let given := calls (MousePosition.moves (evs ++ [last])) s0 in
  Forall (fun r =>
            r = MousePosition.getPosition s'
            /\ MousePosition.deref s' r =
               Some (mkPos (clientX last) (clientY last)))
         given
  /\ List.length given = (if cb then S (List.length evs) else O)
  /\ MousePosition.getPosition s' = MousePosition.getPosition s0
  /\ MousePosition.deref s' (MousePosition.getPosition s') =
     Some (mkPos (clientX last) (clientY last))
  /\ firstn (List.length h) (MousePosition.heap s') = h
  /\ List.length (MousePosition.heap s') = S (List.length h).
Proof.
  intros s0 s' given.
  assert (Hnew : s0 = MousePosition.mk cb (List.length h) true
                        (h ++ [mkPos 0 0])) by reflexivity.
  pose proof (run_position_moves cb h last evs (mkPos 0 0)) as Hrun.
  rewrite <- Hnew in Hrun.
  unfold s', given, exec, calls. rewrite Hrun. cbn [fst snd].
  unfold MousePosition.getPosition, MousePosition.deref.
  cbn [MousePosition.position MousePosition.heap].
  rewrite nth_error_last, firstn_prefix, length_app, Hnew.
  cbn [MousePosition.position List.length].
  split; [|split; [|split; [|split; [|split]]]]; try reflexivity.
  - destruct cb; [|constructor].
    apply Forall_forall. intros r Hr. apply repeat_spec in Hr.
    subst r. split; [reflexivity|apply nth_error_last].
  - destruct cb; [|reflexivity]. apply repeat_length.
  - lia.
Qed.

(** ** ClickDetector: suppressing the context menu *)

Lemma detector_step i s :
  ClickDetector.callbacks (exec (ClickDetector.step i) s) =
  ClickDetector.callbacks s
  /\ (calls (ClickDetector.step i) s = []
      \/ (exists e, calls (ClickDetector.step i) s = [ClickDetector.OnClick e])
      \/ (exists e,
            calls (ClickDetector.step i) s = [ClickDetector.OnDoubleClick e])
      \/ (exists e,
            calls (ClickDetector.step i) s =
            [ClickDetector.PreventDefault e; ClickDetector.OnRightClick e]
            /\ ClickDetector.onRightClick (ClickDetector.callbacks s) = true)).
Proof.
  destruct s as [[c1 c2 c3] l1 l2 l3].
  destruct i as [[| |] e| |]; destruct l1, l2, l3, c1, c2, c3;
    (split; [reflexivity|]);
    first [ left; reflexivity
          | right; left; eexists; reflexivity
          | right; right; left; eexists; reflexivity
          | right; right; right; eexists; split; reflexivity ].
Qed.

Lemma detector_run inputs :
  forall s,
    let trace := calls (ClickDetector.run inputs) s in
    ClickDetector.prevent_then_callback trace
    /\ List.length (filter ClickDetector.is_prevent trace) =
       List.length (filter ClickDetector.is_right_click trace)
    /\ (ClickDetector.onRightClick (ClickDetector.callbacks s) = false ->
        filter ClickDetector.is_prevent trace = []).
Proof.
  induction inputs as [|i inputs IH]; intros s trace.
  - unfold trace, calls. simpl. repeat split.
  - unfold trace. cbn [ClickDetector.run]. rewrite calls_seq.
    destruct (detector_step i s) as [Hcb Hblock].
    destruct (IH (exec (ClickDetector.step i) s)) as (P1 & P2 & P3).
    rewrite Hcb in P3. rewrite !filter_app, !length_app.
    destruct Hblock as [E|[[e E]|[[e E]|[e [E Hr]]]]]; rewrite E; simpl.
    + repeat split; assumption.
    + repeat split; assumption.
    + repeat split; assumption.
    + split; [split; [reflexivity|exact P1]|].
      split; [f_equal; exact P2|]. intro H. congruence.
Qed.

(** X19.  Over any sequence of deliveries, [start()]s and [stop()]s on a
    detector, [preventDefault()] is called on an event only immediately
    before that same event is handed to [onRightClick], so as often as
    [onRightClick] is called; a detector without an [onRightClick]
    callback never suppresses a default action. *)
Theorem X19_default_prevented_for_callback
  (cbs : ClickDetector.Callbacks) (inputs : list ClickDetector.Input) :
  let trace := calls (ClickDetector.run inputs) (ClickDetector.new cbs) in
  ClickDetector.prevent_then_callback trace
  /\ List.length (filter ClickDetector.is_prevent trace) =
     List.length (filter ClickDetector.is_right_click trace)
  /\ (if ClickDetector.onRightClick cbs then True
      else filter ClickDetector.is_prevent trace = []).
Proof.
  intro trace.
  destruct (detector_run inputs (ClickDetector.new cbs)) as (P1 & P2 & P3).
  fold trace in P1, P2, P3.
  split; [exact P1|]. split; [exact P2|].
  destruct (ClickDetector.onRightClick cbs) eqn:E; [exact I|].
  apply P3. simpl. exact E.
Qed.

(** ** HoverTracker and MouseEnterLeave *)

Lemma hover_step_listening cbs h e :
  HoverTracker.step (HoverRuns.hover_input e)
    (HoverTracker.mk cbs h true true) =
  (tt, HoverTracker.mk cbs (fst e) true true, HoverRuns.hover_calls cbs e).
Proof.
  destruct e as [[|] ev], cbs as [[|] [|]]; reflexivity.
Qed.

Lemma hover_run_listening cbs evs :
  forall h,
    HoverTracker.run (map HoverRuns.hover_input evs)
      (HoverTracker.mk cbs h true true) =
    (tt,
     HoverTracker.mk cbs (last (map fst evs) h) true true,
     flat_map (HoverRuns.hover_calls cbs) evs).
Proof.
  induction evs as [|e evs IH]; intro h; [reflexivity|].
  cbn [map HoverTracker.run flat_map]. unfold bind.
  rewrite hover_step_listening, IH, last_cons_default. reflexivity.
Qed.

Lemma hover_run_stopped cbs h evs :
  HoverTracker.run (map HoverRuns.hover_input evs)
    (HoverTracker.mk cbs h false false) =
  (tt, HoverTracker.mk cbs h false false, []).
Proof.
  induction evs as [|e evs IH]; [reflexivity|].
  cbn [map HoverTracker.run]. unfold bind at 1.
  replace (HoverTracker.step (HoverRuns.hover_input e)
             (HoverTracker.mk cbs h false false))
    with (tt, HoverTracker.mk cbs h false false,
          @nil HoverTracker.Call)
    by (destruct e as [[|] ev]; reflexivity).
  rewrite IH. reflexivity.
Qed.

(** X20.  While a hover tracker is listening, [getHoverState()] tells
    whether the latest enter or leave event was an enter (false before any
    event), whether or not callbacks were supplied, and each event calls
    just the callback of its kind if there is one.  [stop()] does not
    reset the state: afterwards no event changes it or calls anything, so
    [getHoverState()] keeps answering what it answered at the moment of
    [stop()]. *)
Theorem X20_hover_state_follows_events
  (cbs : HoverTracker.Callbacks) (evs later : list (bool * MouseEvent)) :
  let events := HoverTracker.run (map HoverRuns.hover_input evs) in
  let s := exec events (HoverTracker.new cbs) in
  let stopped := exec HoverTracker.stop s in
  HoverTracker.getHoverState s = last (map fst evs) false
  /\ calls events (HoverTracker.new cbs) =
     flat_map (HoverRuns.hover_calls cbs) evs
  /\ calls HoverTracker.stop s = []
  /\ HoverTracker.getHoverState stopped = HoverTracker.getHoverState s
  /\ HoverTracker.run (map HoverRuns.hover_input later) stopped =
     (tt, stopped, []).
Proof.
  intros events s stopped.
  assert (Hnew : HoverTracker.new cbs = HoverTracker.mk cbs false true true)
    by reflexivity.
  pose proof (hover_run_listening cbs evs false) as Hrun.
  rewrite <- Hnew in Hrun. fold events in Hrun.
  assert (Hs : s = HoverTracker.mk cbs (last (map fst evs) false) true true).
  { unfold s, exec. rewrite Hrun. reflexivity. }
  assert (Hstopped :
            stopped =
            HoverTracker.mk cbs (last (map fst evs) false) false false).
  { unfold stopped. rewrite Hs. reflexivity. }
  split; [rewrite Hs; reflexivity|].
  split; [unfold calls; rewrite Hrun; reflexivity|].
  split; [reflexivity|].
  split; [rewrite Hstopped, Hs; reflexivity|].
  rewrite Hstopped. apply hover_run_stopped.
Qed.

Lemma hover_step_equiv i s :
  HoverRuns.as_state (exec (HoverTracker.step i) s) =
  exec (MouseEnterLeave.step (HoverRuns.as_input i)) (HoverRuns.as_state s)
  /\ map HoverRuns.as_call (calls (HoverTracker.step i) s) =
     calls (MouseEnterLeave.step (HoverRuns.as_input i))
       (HoverRuns.as_state s).
Proof.
  destruct s as [[[|] [|]] h [|] [|]]; destruct i as [e|e| |];
    split; reflexivity.
Qed.

Lemma hover_run_equiv inputs :
  forall s,
    HoverRuns.as_state (exec (HoverTracker.run inputs) s) =
    exec (MouseEnterLeave.run (map HoverRuns.as_input inputs))
      (HoverRuns.as_state s)
    /\ map HoverRuns.as_call (calls (HoverTracker.run inputs) s) =
       calls (MouseEnterLeave.run (map HoverRuns.as_input inputs))
         (HoverRuns.as_state s).
Proof.
  induction inputs as [|i inputs IH]; intro s; [split; reflexivity|].
  cbn [map HoverTracker.run MouseEnterLeave.run].
  rewrite !exec_seq, !calls_seq, map_app.
  destruct (hover_step_equiv i s) as [Es Ec].
  destruct (IH (exec (HoverTracker.step i) s)) as [IHs IHc].
  rewrite <- Es, <- Ec, IHs, IHc. split; reflexivity.
Qed.

(** X21.  [MouseEnterLeave] and [HoverTracker] are interchangeable: given
    the same callbacks and the same sequence of enter and leave events,
    [start()]s and [stop()]s, they make the same callback calls in the
    same order, and [isMouseInside()] answers what [getHoverState()]
    answers. *)
Theorem X21_enter_leave_is_hover_tracker
  (cbs : HoverTracker.Callbacks) (inputs : list HoverTracker.Input) :
  let hover := HoverTracker.run inputs in
  let inside := MouseEnterLeave.run (map HoverRuns.as_input inputs) in
  let s0 := MouseEnterLeave.new (HoverRuns.as_callbacks cbs) in
  calls inside s0 =
    map HoverRuns.as_call (calls hover (HoverTracker.new cbs))
  /\ MouseEnterLeave.isMouseInside (exec inside s0) =
     HoverTracker.getHoverState (exec hover (HoverTracker.new cbs))
  /\ exec inside s0 =
     HoverRuns.as_state (exec hover (HoverTracker.new cbs)).
Proof.
  intros hover inside s0.
  destruct (hover_run_equiv inputs (HoverTracker.new cbs)) as [Es Ec].
  change (HoverRuns.as_state (HoverTracker.new cbs)) with s0 in Es, Ec.
  fold hover in Es, Ec. fold inside in Es, Ec.
  split; [symmetry; exact Ec|].
  split; [rewrite <- Es; reflexivity|symmetry; exact Es].
Qed.

(** ** ScrollWheel *)

(** X22.  A wheel event delivered to a listening [ScrollWheel] with a
    callback calls it once, with the event's own deltas ([deltaZ] read as
    0 when the event has none) and a direction that is "down" exactly when
    [deltaY] is positive: a scroll with [deltaY] zero, such as a purely
    horizontal one, is reported as "up".  After [stop()], or without a
    callback, nothing is called. *)
Theorem X22_wheel_direction (ev : ScrollWheel.WheelEvent) :
  (exists data,
     calls (ScrollWheel.deliver ev) (ScrollWheel.new true) = [(data, ev)]
     /\ ScrollWheel.data_deltaX data = ScrollWheel.deltaX ev
     /\ ScrollWheel.data_deltaY data = ScrollWheel.deltaY ev
     /\ ScrollWheel.data_deltaZ data =
        match ScrollWheel.deltaZ ev with Some z => z | None => 0%R end
     /\ (ScrollWheel.direction data = ScrollWheel.down <->
         (0 < ScrollWheel.deltaY ev)%R)
     /\ (ScrollWheel.direction data = ScrollWheel.up <->
         (ScrollWheel.deltaY ev <= 0)%R))
  /\ calls (ScrollWheel.deliver ev)
       (exec ScrollWheel.stop (ScrollWheel.new true)) = []
  /\ calls (ScrollWheel.deliver ev) (ScrollWheel.new false) = [].
Proof.
  split; [|split; reflexivity].
  eexists. split; [reflexivity|]. cbn [ScrollWheel.data_deltaX
    ScrollWheel.data_deltaY ScrollWheel.data_deltaZ ScrollWheel.direction].
  do 3 (split; [reflexivity|]).
  destruct (Rlt_dec 0 (ScrollWheel.deltaY ev)) as [H|H]; split; split;
    intro H'; try reflexivity; try discriminate; try lra.
Qed.
